(** * okex-v1: the orchestration core of the trading framework

    A shallow embedding of [src/src/main.c] together with the data model of
    [src/include/exchange.h] and [src/include/strategy.h].

    The exchange adapter, the strategy and the web server are reached by
    [main.c] only through tables of function pointers.  They are modelled as
    records of state transformers over an abstract world [W], which stands
    for everything outside [main.c]: the heap of the three components, the
    network, the clock and the signals the operating system is about to
    deliver.  [main.c] itself is a program in a small state monad over its
    four globals, the world and the log of the calls it has made. *)

From Stdlib Require Import ZArith List String Ascii Bool Lia.
From Stdlib Require Import Floats.SpecFloat.
Import ListNotations.

Local Open Scope string_scope.
Local Open Scope list_scope.
Local Open Scope Z_scope.

(** ** Scalars *)

(** A C [double] is an IEEE-754 binary64 value. *)
Definition double : Type := spec_float.

Definition double_prec : Z := 53.
Definition double_emax : Z := 1024.

Definition double_valid (x : double) : bool :=
  valid_binary double_prec double_emax x.

Definition double_of_Z (z : Z) : double :=
  binary_normalize double_prec double_emax z 0 false.

(** The decimal literal [num/den] of the source, correctly rounded. *)
Definition double_lit (num den : Z) : double :=
  SFdiv double_prec double_emax (double_of_Z num) (double_of_Z den).

Definition double_zero : double := S754_zero false.

Definition time_t : Type := Z.

(** ** exchange.h *)

Inductive exchange_type_t : Type :=
| EXCHANGE_OKEX
| EXCHANGE_BINANCE
| EXCHANGE_HUOBI
| EXCHANGE_MEXC
| EXCHANGE_BYBIT.

Record account_info_t : Type := {
  balance : double;
  stocks : double;
  frozen_balance : double;
  frozen_stocks : double
}.

Record depth_level : Type := {
  price : double;
  amount : double
}.

(** [asks] and [bids] are arrays of ten levels in the source; the counts say
    how many of them are meaningful. *)
Record depth_info_t : Type := {
  asks : list depth_level;
  bids : list depth_level;
  ask_count : Z;
  bid_count : Z
}.

Record exchange_config_t : Type := {
  type : exchange_type_t;
  api_key : string;
  api_secret : string;
  passphrase : string;
  endpoint : string;
  ws_endpoint : string;
  maker_fee : double;
  taker_fee : double
}.

(** ** strategy.h *)

Inductive strategy_state_t : Type :=
| STRATEGY_INIT
| STRATEGY_RUNNING
| STRATEGY_PAUSED
| STRATEGY_STOPPED
| STRATEGY_ERROR.

Record strategy_config_t : Type := {
  name : string;
  version : string;
  initial_balance : double;
  risk_limit : double;
  max_position : double;
  min_profit : double;
  max_trades_per_day : Z;
  start_time : time_t;
  end_time : time_t
}.

Record strategy_stats_t : Type := {
  total_profit : double;
  daily_profit : double;
  total_trades : Z;
  successful_trades : Z;
  max_drawdown : double;
  win_rate : double;
  last_trade_time : time_t
}.

(** ** webserver.h *)

(** Modelled from the spec: [webserver.h] is not among the sources.  The
    configuration has the four fields that [init_framework] initialises. *)
Record webserver_config_t : Type := {
  port : Z;
  host : string;
  max_connections : Z;
  enable_ssl : Z
}.

(** ** The function-pointer tables

    Every entry takes the world and returns the world after the call.  The
    [self] pointer and [private_data] live in the world, and so does
    whatever makes an entry behave differently from one call to the next.
    An out-parameter is returned: the value is what the caller's buffer
    holds when the call comes back.  Every entry of a table is taken to be a
    valid function that returns to its caller. *)

Section Interfaces.

Variable W : Type.

Record exchange_interface_t : Type := {
  exchange_init : exchange_config_t -> W -> Z * W;
  exchange_get_account : W -> (Z * account_info_t) * W;
  exchange_get_depth : string -> W -> (Z * depth_info_t) * W;
  exchange_place_order : string -> Z -> double -> double -> W -> Z * W;
  exchange_cleanup : W -> W
}.

Record strategy_interface_t : Type := {
  strategy_init : strategy_config_t -> W -> Z * W;
  strategy_on_tick : depth_info_t -> Z -> W -> Z * W;
  strategy_on_account : account_info_t -> W -> W;
  strategy_on_order : string -> Z -> double -> double -> Z -> W -> W;
  strategy_get_state : W -> strategy_state_t * W;
  strategy_get_stats : W -> strategy_stats_t * W;
  strategy_start : W -> Z * W;
  strategy_stop : W -> Z * W;
  strategy_cleanup : W -> W
}.

(** Modelled from the spec: [webserver.h] is not among the sources.  The
    table has the entries [main.c] calls; [webserver_broadcast] is the
    Status Sink's [broadcast(text)] of section 6. *)
Record webserver_interface_t : Type := {
  webserver_init : webserver_config_t -> W -> Z * W;
  webserver_register_strategy : strategy_interface_t -> W -> W;
  webserver_start : W -> Z * W;
  webserver_broadcast : string -> W -> W;
  webserver_cleanup : W -> W
}.

End Interfaces.

Arguments exchange_init {W}.
Arguments exchange_get_account {W}.
Arguments exchange_get_depth {W}.
Arguments exchange_place_order {W}.
Arguments exchange_cleanup {W}.
Arguments strategy_init {W}.
Arguments strategy_on_tick {W}.
Arguments strategy_on_account {W}.
Arguments strategy_on_order {W}.
Arguments strategy_get_state {W}.
Arguments strategy_get_stats {W}.
Arguments strategy_start {W}.
Arguments strategy_stop {W}.
Arguments strategy_cleanup {W}.
Arguments webserver_init {W}.
Arguments webserver_register_strategy {W}.
Arguments webserver_start {W}.
Arguments webserver_broadcast {W}.
Arguments webserver_cleanup {W}.

(** ** Text formatting *)

Definition dquote : string := String (ascii_of_nat 34) "".
Definition newline : string := String (ascii_of_nat 10) "".

Definition quoted (s : string) : string := (dquote ++ s ++ dquote)%string.

Definition digit_char (d : Z) : ascii := ascii_of_nat (48 + Z.to_nat d).

Fixpoint decimal_digits (fuel : nat) (n : Z) (acc : string) : string :=
  match fuel with
  | O => acc
  | S fuel' =>
      let acc' := String (digit_char (n mod 10)) acc in
      if n <? 10 then acc' else decimal_digits fuel' (n / 10) acc'
  end.

(** The decimal numeral of a natural number [n]. *)
Definition decimal (n : Z) : string :=
  decimal_digits (S (Z.to_nat (Z.log2 n))) n "".

(** The conversion [%d]. *)
Definition fmt_d (n : Z) : string :=
  if n <? 0 then ("-" ++ decimal (- n))%string else decimal n.

(** [m * 2^e] in hundredths, rounded to the nearest integer, ties to even. *)
Definition hundredths (m e : Z) : Z :=
  if 0 <=? e then 100 * m * 2 ^ e
  else
    let d := 2 ^ (- e) in
    let q := (100 * m) / d in
    let r := (100 * m) mod d in
    if 2 * r <? d then q
    else if d <? 2 * r then q + 1
    else if Z.even q then q else q + 1.

Definition sign_text (s : bool) : string := if s then "-" else "".

(** The conversion [%.2f]. *)
Definition fmt_f2 (x : double) : string :=
  match x with
  | S754_zero s => (sign_text s ++ "0.00")%string
  | S754_infinity s => (sign_text s ++ "inf")%string
  | S754_nan => "nan"
  | S754_finite s m e =>
      let h := hundredths (Zpos m) e in
      (sign_text s ++ decimal (h / 100) ++ "."
         ++ String (digit_char (h mod 100 / 10))
              (String (digit_char (h mod 10)) ""))%string
  end.

Inductive printf_arg : Type :=
| Arg_double (x : double)
| Arg_int (n : Z).

(** The template language of the calls in [main.c]: the conversions [%.2f]
    and [%d], every other character standing for itself.  A conversion whose
    argument is missing or of the other kind prints nothing. *)
Fixpoint format (fmt : string) (args : list printf_arg) : string :=
  match fmt with
  | EmptyString => EmptyString
  | String "%" (String "." (String "2" (String "f" rest))) =>
      match args with
      | Arg_double x :: args' => (fmt_f2 x ++ format rest args')%string
      | _ :: args' => format rest args'
      | [] => format rest []
      end
  | String "%" (String "d" rest) =>
      match args with
      | Arg_int n :: args' => (fmt_d n ++ format rest args')%string
      | _ :: args' => format rest args'
      | [] => format rest []
      end
  | String c rest => String c (format rest args)
  end.

Fixpoint truncate (n : nat) (s : string) : string :=
  match n, s with
  | O, _ => EmptyString
  | _, EmptyString => EmptyString
  | S n', String c s' => String c (truncate n' s')
  end.

(** Modelled from the spec: [snLogf] is declared in no file of the sources.
    Its call in [main_loop] passes the destination buffer, the buffer's
    size, a template and the values to "serialize a fixed-shape status
    record (total profit, daily profit, trade count) to text" (section 4.4,
    step 3).  It is the bounded formatter of the C library under the
    project's name: the text is formatted and the destination receives at
    most [size - 1] characters of it, followed by the terminator.  The
    result is the text the destination holds afterwards. *)
Definition snLogf (size : nat) (fmt : string) (args : list printf_arg)
  : string :=
  truncate (size - 1) (format fmt args).

(** ** What lies outside main.c *)

Inductive signum : Type :=
| SIGINT
| SIGTERM.

Definition signo (s : signum) : Z :=
  match s with
  | SIGINT => 2
  | SIGTERM => 15
  end.

(** The free functions [main.c] links against and the operating system.
    [deliver] is asked at every point where a signal handler can run, which
    is before every call out of [main.c] and before every test of the loop:
    it says which of the two handled signals arrive there, in order.  A
    signal that arrives before [main] has installed the handlers ends the
    process by its default action and is outside the model.
    [create_webserver] and [destroy_webserver] belong to [webserver.h],
    which is not among the sources; they are taken as the exchange's and the
    strategy's are declared. *)
Record platform (W : Type) : Type := {
  create_exchange : exchange_type_t -> W -> option (exchange_interface_t W) * W;
  destroy_exchange : exchange_interface_t W -> W -> W;
  create_strategy : string -> W -> option (strategy_interface_t W) * W;
  destroy_strategy : strategy_interface_t W -> W -> W;
  create_webserver : W -> option (webserver_interface_t W) * W;
  destroy_webserver : webserver_interface_t W -> W -> W;
  usleep : Z -> W -> W;
  deliver : W -> list signum * W
}.

Arguments create_exchange {W}.
Arguments destroy_exchange {W}.
Arguments create_strategy {W}.
Arguments destroy_strategy {W}.
Arguments create_webserver {W}.
Arguments destroy_webserver {W}.
Arguments usleep {W}.
Arguments deliver {W}.

(** The calls [main.c] makes, each with the values that came back. *)
Inductive event : Type :=
| Ev_signal (sig : signum)
| Ev_Logf (fmt : string) (args : list printf_arg)
| Ev_create_exchange (t : exchange_type_t) (made : bool)
| Ev_exchange_init (config : exchange_config_t) (rc : Z)
| Ev_get_depth (symbol : string) (rc : Z) (depth : depth_info_t)
| Ev_get_account (rc : Z) (account : account_info_t)
| Ev_exchange_cleanup
| Ev_destroy_exchange
| Ev_create_strategy (name : string) (made : bool)
| Ev_strategy_init (config : strategy_config_t) (rc : Z)
| Ev_on_tick (depths : depth_info_t) (depth_count : Z) (rc : Z)
| Ev_on_account (account : account_info_t)
| Ev_get_stats (stats : strategy_stats_t)
| Ev_strategy_start (rc : Z)
| Ev_strategy_cleanup
| Ev_destroy_strategy
| Ev_create_webserver (made : bool)
| Ev_webserver_init (config : webserver_config_t) (rc : Z)
| Ev_register_strategy
| Ev_webserver_start (rc : Z)
| Ev_broadcast (text : string)
| Ev_webserver_cleanup
| Ev_destroy_webserver
| Ev_usleep (usec : Z).

Definition is_some {A : Type} (o : option A) : bool :=
  match o with
  | Some _ => true
  | None => false
  end.

(** ** main.c *)

Definition signal_message : string :=
  ("Received signal %d, shutting down..." ++ newline)%string.

Definition status_format : string :=
  ("{" ++ quoted "total_profit" ++ ":%.2f,"
       ++ quoted "daily_profit" ++ ":%.2f,"
       ++ quoted "trades" ++ ":%d}")%string.

(** [sizeof(status)] for [char status[256]]. *)
Definition status_size : nat := 256.

Section Program.

Context {W : Type} (P : platform W).

(** The globals of [main.c], the world, and the calls made so far. *)
Record machine : Type := {
  g_running : Z;
  g_strategy : option (strategy_interface_t W);
  g_exchange : option (exchange_interface_t W);
  g_webserver : option (webserver_interface_t W);
  world : W;
  trace : list event
}.

(** How a run ends: it returns, it dereferences a null pointer, or the
    fuel of the main loop runs out while the loop is still going. *)
Inductive outcome (A : Type) : Type :=
| Returned (a : A) (m : machine)
| Crashed (m : machine)
| Unfinished (m : machine).

Arguments Returned {A}.
Arguments Crashed {A}.
Arguments Unfinished {A}.

Definition M (A : Type) : Type := machine -> outcome A.

Definition ret {A : Type} (a : A) : M A := fun m => Returned a m.

Definition bind {A B : Type} (c : M A) (k : A -> M B) : M B :=
  fun m =>
    match c m with
    | Returned a m' => k a m'
    | Crashed m' => Crashed m'
    | Unfinished m' => Unfinished m'
    end.

Notation "x <- c1 ;; c2" := (bind c1 (fun x => c2))
  (at level 61, c1 at next level, right associativity).
Notation "' pat <- c1 ;; c2" :=
  (bind c1 (fun x => match x with pat => c2 end))
  (at level 61, pat pattern, c1 at next level, right associativity).
Notation "c1 ;; c2" := (bind c1 (fun _ => c2))
  (at level 61, right associativity).

Definition crash {A : Type} : M A := fun m => Crashed m.
Definition out_of_fuel {A : Type} : M A := fun m => Unfinished m.

Definition get {A : Type} (field : machine -> A) : M A :=
  fun m => Returned (field m) m.

Definition set_g_running (v : Z) : M unit :=
  fun m => Returned tt
    {| g_running := v; g_strategy := g_strategy m;
       g_exchange := g_exchange m; g_webserver := g_webserver m;
       world := world m; trace := trace m |}.

Definition set_g_strategy (v : option (strategy_interface_t W)) : M unit :=
  fun m => Returned tt
    {| g_running := g_running m; g_strategy := v;
       g_exchange := g_exchange m; g_webserver := g_webserver m;
       world := world m; trace := trace m |}.

Definition set_g_exchange (v : option (exchange_interface_t W)) : M unit :=
  fun m => Returned tt
    {| g_running := g_running m; g_strategy := g_strategy m;
       g_exchange := v; g_webserver := g_webserver m;
       world := world m; trace := trace m |}.

Definition set_g_webserver (v : option (webserver_interface_t W)) : M unit :=
  fun m => Returned tt
    {| g_running := g_running m; g_strategy := g_strategy m;
       g_exchange := g_exchange m; g_webserver := v;
       world := world m; trace := trace m |}.

Definition set_world (w : W) : M unit :=
  fun m => Returned tt
    {| g_running := g_running m; g_strategy := g_strategy m;
       g_exchange := g_exchange m; g_webserver := g_webserver m;
       world := w; trace := trace m |}.

Definition emit (e : event) : M unit :=
  fun m => Returned tt
    {| g_running := g_running m; g_strategy := g_strategy m;
       g_exchange := g_exchange m; g_webserver := g_webserver m;
       world := world m; trace := trace m ++ [e] |}.

(** [p->...] for a global pointer [p]. *)
Definition deref {A : Type} (field : machine -> option A) : M A :=
  p <- get field ;;
  match p with
  | Some a => ret a
  | None => crash
  end.

(** [static void handle_signal(int sig)] *)
Definition handle_signal (sig : Z) : M unit :=
  emit (Ev_Logf signal_message [Arg_int sig]) ;;
  set_g_running 0.

Fixpoint handle_signals (sigs : list signum) : M unit :=
  match sigs with
  | [] => ret tt
  | s :: rest => handle_signal (signo s) ;; handle_signals rest
  end.

(** A point where the handlers installed by [main] can run. *)
Definition interrupts : M unit :=
  w <- get world ;;
  let '(sigs, w') := deliver P w in
  set_world w' ;;
  handle_signals sigs.

(** A call out of [main.c] that returns a value. *)
Definition call {A : Type} (f : W -> A * W) (ev : A -> event) : M A :=
  interrupts ;;
  w <- get world ;;
  let '(a, w') := f w in
  set_world w' ;;
  emit (ev a) ;;
  ret a.

(** A call out of [main.c] whose result, if any, is dropped. *)
Definition call_ (f : W -> W) (ev : event) : M unit :=
  call (fun w => (tt, f w)) (fun _ => ev).

(** Modelled from the spec: [Logf] is declared in no file of the sources.
    It is the logging call of the project (the coordinator "logs the
    signal", section 4.5): a call is recorded in the log of calls with its
    template and arguments. *)
Definition Logf (fmt : string) (args : list printf_arg) : M unit :=
  interrupts ;;
  emit (Ev_Logf fmt args).

(** [signal(sig, handle_signal)] *)
Definition signal (sig : signum) : M unit :=
  emit (Ev_signal sig).

Definition ex_config : exchange_config_t :=
  {| type := EXCHANGE_OKEX;
     api_key := ""; api_secret := ""; passphrase := "";
     endpoint := ""; ws_endpoint := "";
     maker_fee := double_lit 1 1000;
     taker_fee := double_lit 2 1000 |}.

Definition st_config : strategy_config_t :=
  {| name := "ArbitrageStrategy";
     version := "1.0.0";
     initial_balance := double_lit 10000 1;
     risk_limit := double_lit 1000 1;
     max_position := double_lit 100 1;
     min_profit := double_lit 1 1000;
     max_trades_per_day := 0;
     start_time := 0;
     end_time := 0 |}.

Definition web_config : webserver_config_t :=
  {| port := 8080;
     host := "0.0.0.0";
     max_connections := 100;
     enable_ssl := 0 |}.

(** [static int init_framework(void)] *)
Definition init_framework : M Z :=
  ex <- call (create_exchange P EXCHANGE_OKEX)
             (fun r => Ev_create_exchange EXCHANGE_OKEX (is_some r)) ;;
  set_g_exchange ex ;;
  p <- get g_exchange ;;
  bad <- match p with
         | None => ret true
         | Some e =>
             rc <- call (exchange_init e ex_config)
                        (Ev_exchange_init ex_config) ;;
             ret (negb (rc =? 0))
         end ;;
  if bad : bool then
    Logf ("Failed to initialize exchange" ++ newline)%string [] ;;
    ret (-1)
  else
  st <- call (create_strategy P "arbitrage")
             (fun r => Ev_create_strategy "arbitrage" (is_some r)) ;;
  set_g_strategy st ;;
  p <- get g_strategy ;;
  bad <- match p with
         | None => ret true
         | Some s =>
             rc <- call (strategy_init s st_config)
                        (Ev_strategy_init st_config) ;;
             ret (negb (rc =? 0))
         end ;;
  if bad : bool then
    Logf ("Failed to initialize strategy" ++ newline)%string [] ;;
    ret (-1)
  else
  ws <- call (create_webserver P)
             (fun r => Ev_create_webserver (is_some r)) ;;
  set_g_webserver ws ;;
  p <- get g_webserver ;;
  bad <- match p with
         | None => ret true
         | Some s =>
             rc <- call (webserver_init s web_config)
                        (Ev_webserver_init web_config) ;;
             ret (negb (rc =? 0))
         end ;;
  if bad : bool then
    Logf ("Failed to initialize web server" ++ newline)%string [] ;;
    ret (-1)
  else
  ws <- deref g_webserver ;;
  st <- deref g_strategy ;;
  call_ (webserver_register_strategy ws st) Ev_register_strategy ;;
  ret 0.

(** [static void cleanup(void)] *)
Definition cleanup : M unit :=
  ws <- get g_webserver ;;
  match ws with
  | Some s =>
      call_ (webserver_cleanup s) Ev_webserver_cleanup ;;
      call_ (destroy_webserver P s) Ev_destroy_webserver
  | None => ret tt
  end ;;
  st <- get g_strategy ;;
  match st with
  | Some s =>
      call_ (strategy_cleanup s) Ev_strategy_cleanup ;;
      call_ (destroy_strategy P s) Ev_destroy_strategy
  | None => ret tt
  end ;;
  ex <- get g_exchange ;;
  match ex with
  | Some e =>
      call_ (exchange_cleanup e) Ev_exchange_cleanup ;;
      call_ (destroy_exchange P e) Ev_destroy_exchange
  | None => ret tt
  end.

(** The text [main_loop] formats into [status]. *)
Definition status_text (stats : strategy_stats_t) : string :=
  snLogf status_size status_format
    [Arg_double (total_profit stats);
     Arg_double (daily_profit stats);
     Arg_int (total_trades stats)].

(** The body of the [while] of [main_loop]: one polling cycle. *)
Definition loop_body : M unit :=
  ex <- deref g_exchange ;;
  '(rc, depth) <- call (exchange_get_depth ex "BTC_USDT")
                       (fun r => Ev_get_depth "BTC_USDT" (fst r) (snd r)) ;;
  (if rc =? 0 then
     st <- deref g_strategy ;;
     _ <- call (strategy_on_tick st depth 1) (Ev_on_tick depth 1) ;;
     ret tt
   else ret tt) ;;
  ex <- deref g_exchange ;;
  '(rc, account) <- call (exchange_get_account ex)
                         (fun r => Ev_get_account (fst r) (snd r)) ;;
  (if rc =? 0 then
     st <- deref g_strategy ;;
     call_ (strategy_on_account st account) (Ev_on_account account)
   else ret tt) ;;
  st <- deref g_strategy ;;
  stats <- call (strategy_get_stats st) Ev_get_stats ;;
  let status := status_text stats in
  ws <- deref g_webserver ;;
  call_ (webserver_broadcast ws status) (Ev_broadcast status) ;;
  call_ (usleep P 100000) (Ev_usleep 100000).

(** [static void main_loop(void)]: [while (g_running) { ... }], with at
    most [fuel] cycles. *)
Fixpoint main_loop (fuel : nat) : M unit :=
  interrupts ;;
  running <- get g_running ;;
  if running =? 0 then ret tt
  else
    match fuel with
    | O => out_of_fuel
    | S fuel' => loop_body ;; main_loop fuel'
    end.

(** [int main(void)]; the result is the exit code of the process. *)
Definition main (fuel : nat) : M Z :=
  signal SIGINT ;;
  signal SIGTERM ;;
  rc <- init_framework ;;
  if negb (rc =? 0) then
    Logf ("Framework initialization failed" ++ newline)%string [] ;;
    cleanup ;;
    ret 1
  else
  ws <- deref g_webserver ;;
  rc <- call (webserver_start ws) Ev_webserver_start ;;
  if negb (rc =? 0) then
    Logf ("Failed to start web server" ++ newline)%string [] ;;
    cleanup ;;
    ret 1
  else
  st <- deref g_strategy ;;
  rc <- call (strategy_start st) Ev_strategy_start ;;
  if negb (rc =? 0) then
    Logf ("Failed to start strategy" ++ newline)%string [] ;;
    cleanup ;;
    ret 1
  else
  Logf ("Quantitative trading framework started" ++ newline)%string [] ;;
  main_loop fuel ;;
  cleanup ;;
  ret 0.

(** The machine when [main] is entered: the initialisers of the globals. *)
Definition boot (w : W) : machine :=
  {| g_running := 1; g_strategy := None; g_exchange := None;
     g_webserver := None; world := w; trace := [] |}.

End Program.

Arguments machine : clear implicits.
Arguments outcome : clear implicits.
Arguments M : clear implicits.
Arguments Returned {W A}.
Arguments Crashed {W A}.
Arguments Unfinished {W A}.

(** ** Reading the log of calls *)

(** The line [handle_signal] logs. *)
Definition is_signal_log (e : event) : bool :=
  match e with
  | Ev_Logf fmt _ => String.eqb fmt signal_message
  | _ => false
  end.

Definition signal_logs (sigs : list signum) : list event :=
  map (fun s => Ev_Logf signal_message [Arg_int (signo s)]) sigs.

(** The log without the lines of the signal handler: what the straight-line
    code of [main.c] did. *)
Definition calls (l : list event) : list event :=
  filter (fun e => negb (is_signal_log e)) l.

Definition is_log (e : event) : bool :=
  match e with
  | Ev_Logf _ _ => true
  | _ => false
  end.

Definition is_get_depth (e : event) : bool :=
  match e with
  | Ev_get_depth _ _ _ => true
  | _ => false
  end.

Definition is_on_tick (e : event) : bool :=
  match e with
  | Ev_on_tick _ _ _ => true
  | _ => false
  end.

Definition is_on_account (e : event) : bool :=
  match e with
  | Ev_on_account _ => true
  | _ => false
  end.

Definition is_get_stats (e : event) : bool :=
  match e with
  | Ev_get_stats _ => true
  | _ => false
  end.

Definition is_broadcast (e : event) : bool :=
  match e with
  | Ev_broadcast _ => true
  | _ => false
  end.

(** The shape of a status record around three numerals. *)
Definition status_shape (total daily trades : string) : string :=
  ("{" ++ quoted "total_profit" ++ ":" ++ total
     ++ "," ++ quoted "daily_profit" ++ ":" ++ daily
     ++ "," ++ quoted "trades" ++ ":" ++ trades
     ++ "}")%string.

(** The status record of [stats] written out in full. *)
Definition status_line (stats : strategy_stats_t) : string :=
  status_shape (fmt_f2 (total_profit stats)) (fmt_f2 (daily_profit stats))
    (fmt_d (total_trades stats)).

(** The calls of one polling cycle, given what came back from each.  The
    text broadcast is written out: the first 255 characters of the status
    record of the statistics read. *)
Definition cycle_calls (rc_depth : Z) (depth : depth_info_t) (rc_tick : Z)
    (rc_account : Z) (account : account_info_t) (stats : strategy_stats_t)
  : list event :=
  [Ev_get_depth "BTC_USDT" rc_depth depth]
    ++ (if rc_depth =? 0 then [Ev_on_tick depth 1 rc_tick] else [])
    ++ [Ev_get_account rc_account account]
    ++ (if rc_account =? 0 then [Ev_on_account account] else [])
    ++ [Ev_get_stats stats;
        Ev_broadcast (truncate 255 (status_line stats));
        Ev_usleep 100000].

Definition is_cycle (l : list event) : Prop :=
  exists rc_depth depth rc_tick rc_account account stats,
    l = cycle_calls rc_depth depth rc_tick rc_account account stats.

(** A sequence of whole cycles. *)
Inductive cycles : list event -> Prop :=
| cycles_nil : cycles []
| cycles_cons (c rest : list event) :
    is_cycle c -> cycles rest -> cycles (c ++ rest).

(** The end of one cycle: what is still to come of the cycle under way. *)
Definition cycle_tail (t : list event) : Prop :=
  exists pre, is_cycle (pre ++ t).

(** Whenever the signal handler has run, what follows is the end of the one
    cycle under way and nothing more. *)
Definition stops_after_signal (l : list event) : Prop :=
  forall l1 e l2,
    l = l1 ++ e :: l2 -> is_signal_log e = true -> cycle_tail (calls l2).

Fixpoint last_char (s : string) : option ascii :=
  match s with
  | EmptyString => None
  | String c EmptyString => Some c
  | String _ rest => last_char rest
  end.

(** Every depth poll names the pair [BTC_USDT] and every tick carries one
    snapshot. *)
Definition fixed_poll (e : event) : Prop :=
  match e with
  | Ev_get_depth symbol _ _ => symbol = "BTC_USDT"
  | Ev_on_tick _ depth_count _ => depth_count = 1
  | _ => True
  end.

(** A startup step that failed. *)
Definition startup_failure (e : event) : bool :=
  match e with
  | Ev_create_exchange _ made => negb made
  | Ev_exchange_init _ rc => negb (rc =? 0)
  | Ev_create_strategy _ made => negb made
  | Ev_strategy_init _ rc => negb (rc =? 0)
  | Ev_create_webserver made => negb made
  | Ev_webserver_init _ rc => negb (rc =? 0)
  | Ev_webserver_start rc => negb (rc =? 0)
  | Ev_strategy_start rc => negb (rc =? 0)
  | _ => false
  end.

(** Construction and destruction of the three components. *)
Definition is_lifecycle (e : event) : bool :=
  match e with
  | Ev_create_exchange _ _ | Ev_create_strategy _ _ | Ev_create_webserver _
  | Ev_exchange_cleanup | Ev_destroy_exchange
  | Ev_strategy_cleanup | Ev_destroy_strategy
  | Ev_webserver_cleanup | Ev_destroy_webserver => true
  | _ => false
  end.

Definition lifecycle (l : list event) : list event := filter is_lifecycle l.

Definition made_exchange (l : list event) : bool :=
  existsb (fun e => match e with
                    | Ev_create_exchange _ made => made
                    | _ => false
                    end) l.

Definition made_strategy (l : list event) : bool :=
  existsb (fun e => match e with
                    | Ev_create_strategy _ made => made
                    | _ => false
                    end) l.

Definition made_webserver (l : list event) : bool :=
  existsb (fun e => match e with
                    | Ev_create_webserver made => made
                    | _ => false
                    end) l.

(** What [cleanup] calls, given which components exist. *)
Definition teardown (webserver strategy exchange : bool) : list event :=
  (if webserver then [Ev_webserver_cleanup; Ev_destroy_webserver] else [])
    ++ (if strategy then [Ev_strategy_cleanup; Ev_destroy_strategy] else [])
    ++ (if exchange then [Ev_exchange_cleanup; Ev_destroy_exchange] else []).

(** The three constructions in the order of [init_framework]. *)
Definition constructions (exchange strategy webserver : bool) : list event :=
  [Ev_create_exchange EXCHANGE_OKEX exchange;
   Ev_create_strategy "arbitrage" strategy;
   Ev_create_webserver webserver].

(** The constructions [init_framework] gets to: each component is created
    only once the one before it exists. *)
Inductive built : list event -> Prop :=
| built_exchange (made : bool) :
    built [Ev_create_exchange EXCHANGE_OKEX made]
| built_strategy (made : bool) :
    built [Ev_create_exchange EXCHANGE_OKEX true;
           Ev_create_strategy "arbitrage" made]
| built_webserver (made : bool) :
    built (constructions true true made).

(** A stretch of the log in which nothing is constructed and no startup
    step fails. *)
Definition quiet (l : list event) : Prop :=
  existsb startup_failure l = false
  /\ made_exchange l = false
  /\ made_strategy l = false
  /\ made_webserver l = false.

Section Runs.

Context {W : Type}.

Definition final {A : Type} (o : outcome W A) : machine W :=
  match o with
  | Returned _ m => m
  | Crashed m => m
  | Unfinished m => m
  end.

Definition returned {A : Type} (o : outcome W A) : bool :=
  match o with
  | Returned _ _ => true
  | _ => false
  end.

Definition crashed {A : Type} (o : outcome W A) : bool :=
  match o with
  | Crashed _ => true
  | _ => false
  end.

(** The exit code of the process, if [main] returned. *)
Definition exit_code (o : outcome W Z) : option Z :=
  match o with
  | Returned code _ => Some code
  | _ => None
  end.

(** The three global pointers are the same in both machines. *)
Definition same_ptrs (m m' : machine W) : Prop :=
  g_strategy m' = g_strategy m
  /\ g_exchange m' = g_exchange m
  /\ g_webserver m' = g_webserver m.

(** [m'] comes after [m]: the log grew by [l], and the stop flag was
    cleared exactly if the signal handler ran in between. *)
Definition advances (m m' : machine W) (l : list event) : Prop :=
  trace m' = trace m ++ l
  /\ g_running m' = (if existsb is_signal_log l then 0 else g_running m).

(** The three components exist. *)
Definition wired (m : machine W) : Prop :=
  g_exchange m <> None /\ g_strategy m <> None /\ g_webserver m <> None.

(** [c] run from [m] does not crash; [Q] holds if it returns and [U] if
    the fuel runs out. *)
Definition wp {A : Type} (c : M W A) (m : machine W)
    (Q : A -> machine W -> Prop) (U : machine W -> Prop) : Prop :=
  match c m with
  | Returned a m' => Q a m'
  | Unfinished m' => U m'
  | Crashed _ => False
  end.

Definition never (m : machine W) : Prop := False.

(** What [init_framework] leaves behind: its result tells whether a
    startup step failed, the pointers tell which components were made. *)
Definition startup_post (rc : Z) (m' : machine W) (l : list event) : Prop :=
  (rc = 0 \/ rc = -1)
  /\ (rc = 0 <-> existsb startup_failure l = false)
  /\ (rc = 0 -> wired m')
  /\ (rc = 0 -> lifecycle l = constructions true true true)
  /\ built (lifecycle l)
  /\ is_some (g_exchange m') = made_exchange l
  /\ is_some (g_strategy m') = made_strategy l
  /\ is_some (g_webserver m') = made_webserver l.

(** What holds when [main] has returned [code]. *)
Definition exit_post (code : Z) (m' : machine W) : Prop :=
  let l := trace m' in
  ((code = 1 /\ existsb startup_failure l = true)
   \/ (code = 0 /\ existsb startup_failure l = false
                /\ existsb is_signal_log l = true))
  /\ g_running m' = (if existsb is_signal_log l then 0 else 1)
  /\ (exists cs,
        built cs
        /\ lifecycle l
           = cs ++ teardown (made_webserver cs) (made_strategy cs)
                            (made_exchange cs))
  /\ is_some (g_exchange m') = made_exchange l
  /\ is_some (g_strategy m') = made_strategy l
  /\ is_some (g_webserver m') = made_webserver l.

(** What holds when the fuel ran out inside [main]. *)
Definition still_running (m' : machine W) : Prop :=
  let l := trace m' in
  existsb startup_failure l = false
  /\ existsb is_signal_log l = false
  /\ g_running m' = 1
  /\ lifecycle l = constructions true true true.

(** [c] keeps the polls of the log fixed, however it ends. *)
Definition keeps_polls_fixed {A : Type} (c : M W A) : Prop :=
  forall m,
  exists l, trace (final (c m)) = trace m ++ l /\ Forall fixed_poll l.

End Runs.

(** ** A scripted world

    The world is the schedule of signals: one entry for each coming point
    where a handler can run.  The components answer as the scenario says. *)

Record scenario : Type := {
  sc_exchange_made : bool;
  sc_exchange_init : Z;
  sc_strategy_made : bool;
  sc_strategy_init : Z;
  sc_webserver_made : bool;
  sc_webserver_init : Z;
  sc_webserver_start : Z;
  sc_strategy_start : Z;
  sc_depth_rc : Z;
  sc_depth : depth_info_t;
  sc_on_tick_rc : Z;
  sc_account_rc : Z;
  sc_account : account_info_t;
  sc_stats : strategy_stats_t
}.

Definition schedule : Type := list (list signum).

Definition sim_exchange (sc : scenario) : exchange_interface_t schedule :=
  {| exchange_init := fun _ w => (sc_exchange_init sc, w);
     exchange_get_account := fun w => ((sc_account_rc sc, sc_account sc), w);
     exchange_get_depth := fun _ w => ((sc_depth_rc sc, sc_depth sc), w);
     exchange_place_order := fun _ _ _ _ w => (0, w);
     exchange_cleanup := fun w => w |}.

Definition sim_strategy (sc : scenario) : strategy_interface_t schedule :=
  {| strategy_init := fun _ w => (sc_strategy_init sc, w);
     strategy_on_tick := fun _ _ w => (sc_on_tick_rc sc, w);
     strategy_on_account := fun _ w => w;
     strategy_on_order := fun _ _ _ _ _ w => w;
     strategy_get_state := fun w => (STRATEGY_RUNNING, w);
     strategy_get_stats := fun w => (sc_stats sc, w);
     strategy_start := fun w => (sc_strategy_start sc, w);
     strategy_stop := fun w => (0, w);
     strategy_cleanup := fun w => w |}.

Definition sim_webserver (sc : scenario) : webserver_interface_t schedule :=
  {| webserver_init := fun _ w => (sc_webserver_init sc, w);
     webserver_register_strategy := fun _ w => w;
     webserver_start := fun w => (sc_webserver_start sc, w);
     webserver_broadcast := fun _ w => w;
     webserver_cleanup := fun w => w |}.

Definition sim_platform (sc : scenario) : platform schedule :=
  {| create_exchange := fun _ w =>
       (if sc_exchange_made sc then Some (sim_exchange sc) else None, w);
     destroy_exchange := fun _ w => w;
     create_strategy := fun _ w =>
       (if sc_strategy_made sc then Some (sim_strategy sc) else None, w);
     destroy_strategy := fun _ w => w;
     create_webserver := fun w =>
       (if sc_webserver_made sc then Some (sim_webserver sc) else None, w);
     destroy_webserver := fun _ w => w;
     usleep := fun _ w => w;
     deliver := fun w =>
       match w with
       | [] => ([], [])
       | sigs :: rest => (sigs, rest)
       end |}.

Definition flat_account : account_info_t :=
  {| balance := double_lit 10000 1; stocks := double_zero;
     frozen_balance := double_zero; frozen_stocks := double_zero |}.

Definition one_ask : depth_info_t :=
  {| asks := [{| price := double_lit 20000 1; amount := double_lit 1 2 |}];
     bids := []; ask_count := 1; bid_count := 0 |}.

Definition some_stats : strategy_stats_t :=
  {| total_profit := double_lit 2505 100;
     daily_profit := double_lit (-5) 4;
     total_trades := 7;
     successful_trades := 4;
     max_drawdown := double_zero;
     win_rate := double_lit 4 7;
     last_trade_time := 0 |}.

(** A statistics record whose total profit is [2^1000]. *)
Definition huge_stats : strategy_stats_t :=
  {| total_profit := S754_finite false (2 ^ 52) 948;
     daily_profit := double_zero;
     total_trades := 7;
     successful_trades := 4;
     max_drawdown := double_zero;
     win_rate := double_lit 4 7;
     last_trade_time := 0 |}.

(** Everything succeeds. *)
Definition calm : scenario :=
  {| sc_exchange_made := true; sc_exchange_init := 0;
     sc_strategy_made := true; sc_strategy_init := 0;
     sc_webserver_made := true; sc_webserver_init := 0;
     sc_webserver_start := 0; sc_strategy_start := 0;
     sc_depth_rc := 0; sc_depth := one_ask; sc_on_tick_rc := 0;
     sc_account_rc := 0; sc_account := flat_account;
     sc_stats := some_stats |}.

Definition with_polls (rc_depth rc_tick rc_account : Z) (sc : scenario)
  : scenario :=
  {| sc_exchange_made := sc_exchange_made sc;
     sc_exchange_init := sc_exchange_init sc;
     sc_strategy_made := sc_strategy_made sc;
     sc_strategy_init := sc_strategy_init sc;
     sc_webserver_made := sc_webserver_made sc;
     sc_webserver_init := sc_webserver_init sc;
     sc_webserver_start := sc_webserver_start sc;
     sc_strategy_start := sc_strategy_start sc;
     sc_depth_rc := rc_depth; sc_depth := sc_depth sc;
     sc_on_tick_rc := rc_tick;
     sc_account_rc := rc_account; sc_account := sc_account sc;
     sc_stats := sc_stats sc |}.

Definition with_stats (stats : strategy_stats_t) (sc : scenario) : scenario :=
  {| sc_exchange_made := sc_exchange_made sc;
     sc_exchange_init := sc_exchange_init sc;
     sc_strategy_made := sc_strategy_made sc;
     sc_strategy_init := sc_strategy_init sc;
     sc_webserver_made := sc_webserver_made sc;
     sc_webserver_init := sc_webserver_init sc;
     sc_webserver_start := sc_webserver_start sc;
     sc_strategy_start := sc_strategy_start sc;
     sc_depth_rc := sc_depth_rc sc; sc_depth := sc_depth sc;
     sc_on_tick_rc := sc_on_tick_rc sc;
     sc_account_rc := sc_account_rc sc; sc_account := sc_account sc;
     sc_stats := stats |}.

Definition with_startup (exchange_made : bool) (exchange_rc : Z)
    (strategy_made : bool) (strategy_rc : Z)
    (webserver_made : bool) (webserver_rc : Z)
    (webserver_start_rc strategy_start_rc : Z) (sc : scenario) : scenario :=
  {| sc_exchange_made := exchange_made; sc_exchange_init := exchange_rc;
     sc_strategy_made := strategy_made; sc_strategy_init := strategy_rc;
     sc_webserver_made := webserver_made; sc_webserver_init := webserver_rc;
     sc_webserver_start := webserver_start_rc;
     sc_strategy_start := strategy_start_rc;
     sc_depth_rc := sc_depth_rc sc; sc_depth := sc_depth sc;
     sc_on_tick_rc := sc_on_tick_rc sc;
     sc_account_rc := sc_account_rc sc; sc_account := sc_account sc;
     sc_stats := sc_stats sc |}.

(** The machine inside the main loop of a scenario: the three components
    exist and the flag says [running]. *)
Definition in_loop (sc : scenario) (running : Z) (w : schedule)
  : machine schedule :=
  {| g_running := running;
     g_strategy := Some (sim_strategy sc);
     g_exchange := Some (sim_exchange sc);
     g_webserver := Some (sim_webserver sc);
     world := w; trace := [] |}.

(** ** The calls of a whole run, given the answers

    What [main.c] calls during startup depends only on what the six steps of
    [init_framework] and the two starts answer.  The functions below write
    the calls out from those answers. *)

Record answers : Type := {
  a_exchange : bool;
  a_exchange_init : Z;
  a_strategy : bool;
  a_strategy_init : Z;
  a_webserver : bool;
  a_webserver_init : Z
}.

Definition exchange_exists (a : answers) : bool := a_exchange a.

Definition strategy_exists (a : answers) : bool :=
  a_exchange a && (a_exchange_init a =? 0) && a_strategy a.

Definition webserver_exists (a : answers) : bool :=
  strategy_exists a && (a_strategy_init a =? 0) && a_webserver a.

Definition init_ok (a : answers) : bool :=
  webserver_exists a && (a_webserver_init a =? 0).

Definition init_result (a : answers) : Z := if init_ok a then 0 else -1.

Definition log_line (text : string) : event :=
  Ev_Logf (text ++ newline)%string [].

(** The calls of [init_framework]: it stops at the first step that fails,
    with the line of that component. *)
Definition init_calls (a : answers) : list event :=
  Ev_create_exchange EXCHANGE_OKEX (a_exchange a)
  :: if negb (a_exchange a)
     then [log_line "Failed to initialize exchange"]
     else
  Ev_exchange_init ex_config (a_exchange_init a)
  :: if negb (a_exchange_init a =? 0)
     then [log_line "Failed to initialize exchange"]
     else
  Ev_create_strategy "arbitrage" (a_strategy a)
  :: if negb (a_strategy a)
     then [log_line "Failed to initialize strategy"]
     else
  Ev_strategy_init st_config (a_strategy_init a)
  :: if negb (a_strategy_init a =? 0)
     then [log_line "Failed to initialize strategy"]
     else
  Ev_create_webserver (a_webserver a)
  :: if negb (a_webserver a)
     then [log_line "Failed to initialize web server"]
     else
  Ev_webserver_init web_config (a_webserver_init a)
  :: if negb (a_webserver_init a =? 0)
     then [log_line "Failed to initialize web server"]
     else [Ev_register_strategy].

(** Startup went through: the loop is entered. *)
Definition launched (a : answers) (rc_web rc_strategy : Z) : bool :=
  init_ok a && (rc_web =? 0) && (rc_strategy =? 0).

(** The calls of [main] up to the loop or up to the line of the failure. *)
Definition main_head (a : answers) (rc_web rc_strategy : Z) : list event :=
  [Ev_signal SIGINT; Ev_signal SIGTERM]
    ++ init_calls a
    ++ (if negb (init_ok a)
        then [log_line "Framework initialization failed"]
        else
          Ev_webserver_start rc_web
          :: if negb (rc_web =? 0)
             then [log_line "Failed to start web server"]
             else
          Ev_strategy_start rc_strategy
          :: if negb (rc_strategy =? 0)
             then [log_line "Failed to start strategy"]
             else [log_line "Quantitative trading framework started"]).

(** The calls of the [cleanup] that ends [main]. *)
Definition main_teardown (a : answers) : list event :=
  teardown (webserver_exists a) (strategy_exists a) (exchange_exists a).

(** A call of the polling cycle. *)
Definition is_cycle_call (e : event) : bool :=
  match e with
  | Ev_get_depth _ _ _ | Ev_on_tick _ _ _ | Ev_get_account _ _
  | Ev_on_account _ | Ev_get_stats _ | Ev_broadcast _ | Ev_usleep _ => true
  | _ => false
  end.

Definition is_get_account (e : event) : bool :=
  match e with
  | Ev_get_account _ _ => true
  | _ => false
  end.

Definition is_usleep (e : event) : bool :=
  match e with
  | Ev_usleep _ => true
  | _ => false
  end.

(** A depth poll that succeeded; an account poll that succeeded. *)
Definition depth_polled (e : event) : bool :=
  match e with
  | Ev_get_depth _ rc _ => rc =? 0
  | _ => false
  end.

Definition account_polled (e : event) : bool :=
  match e with
  | Ev_get_account rc _ => rc =? 0
  | _ => false
  end.

Definition count (p : event -> bool) (l : list event) : nat :=
  List.length (filter p l).

(** A call of [cleanup]. *)
Definition is_teardown (e : event) : bool :=
  match e with
  | Ev_exchange_cleanup | Ev_destroy_exchange
  | Ev_strategy_cleanup | Ev_destroy_strategy
  | Ev_webserver_cleanup | Ev_destroy_webserver => true
  | _ => false
  end.

(** From the first call of [cleanup] on, there are only calls of
    [cleanup]. *)
Fixpoint teardown_comes_last (l : list event) : bool :=
  match l with
  | [] => true
  | e :: rest =>
      if is_teardown e then forallb is_teardown rest
      else teardown_comes_last rest
  end.

(** Every callback comes right after the call that feeds it: [on_tick]
    after a depth poll that returned 0, with what that poll left in
    [depth]; [on_account] after an account poll that returned 0, with what
    that poll left in [account]; the broadcast after the read of the
    statistics, with the first 255 characters of their status record.
    [prev] is the call before [l]. *)
Fixpoint handed_on (prev : option event) (l : list event) : Prop :=
  match l with
  | [] => True
  | e :: rest =>
      match e with
      | Ev_on_tick depth _ _ => prev = Some (Ev_get_depth "BTC_USDT" 0 depth)
      | Ev_on_account account => prev = Some (Ev_get_account 0 account)
      | Ev_broadcast text =>
          exists stats,
            prev = Some (Ev_get_stats stats)
            /\ text = truncate 255 (status_line stats)
      | _ => True
      end
      /\ handed_on (Some e) rest
  end.

Section More_runs.

Context {W : Type}.

(** What [init_framework] has done when it returns [rc]. *)
Definition init_post (rc : Z) (m' : machine W) (l : list event) : Prop :=
  exists a,
    calls l = init_calls a
    /\ rc = init_result a
    /\ is_some (g_exchange m') = exchange_exists a
    /\ is_some (g_strategy m') = strategy_exists a
    /\ is_some (g_webserver m') = webserver_exists a.

(** What [main] has done when it returns [code]: the log falls into the
    startup, the loop and the teardown. *)
Definition main_post (code : Z) (m' : machine W) : Prop :=
  exists a rc_web rc_strategy l_start l_loop l_end,
    trace m' = l_start ++ l_loop ++ l_end
    /\ calls l_start = main_head a rc_web rc_strategy
    /\ cycles (calls l_loop)
    /\ calls l_end = main_teardown a
    /\ (launched a rc_web rc_strategy = false -> l_loop = [])
    /\ (existsb is_signal_log l_start = true -> calls l_loop = [])
    /\ code = (if launched a rc_web rc_strategy then 0 else 1).

(** What [main] has done when the fuel ran out. *)
Definition main_running_post (m' : machine W) : Prop :=
  exists a rc_web rc_strategy l_start l_loop,
    trace m' = l_start ++ l_loop
    /\ calls l_start = main_head a rc_web rc_strategy
    /\ cycles (calls l_loop)
    /\ launched a rc_web rc_strategy = true.

(** [c] run from [m] dereferences a null pointer, and [Q] holds then. *)
Definition faults {A : Type} (c : M W A) (m : machine W)
    (Q : machine W -> Prop) : Prop :=
  match c m with
  | Crashed m' => Q m'
  | _ => False
  end.

(** [c] never sets the stop flag back: it leaves the flag as it was or
    clear, however it ends. *)
Definition keeps_stop {A : Type} (c : M W A) : Prop :=
  forall m,
    g_running (final (c m)) = g_running m \/ g_running (final (c m)) = 0.

End More_runs.

(** * Facts about the log *)

Lemma signal_logs_are_signal_logs (sigs : list signum) :
  existsb is_signal_log (signal_logs sigs)
  = match sigs with [] => false | _ => true end.
Proof.
  destruct sigs as [|s rest]; reflexivity.
Qed.

Lemma calls_app (l1 l2 : list event) : calls (l1 ++ l2) = calls l1 ++ calls l2.
Proof. apply filter_app. Qed.

Lemma calls_signal_logs (sigs : list signum) : calls (signal_logs sigs) = [].
Proof.
  induction sigs as [|s rest IH]; [reflexivity|].
  exact IH.
Qed.

Lemma calls_call (e : event) : is_signal_log e = false -> calls [e] = [e].
Proof.
  intros H. unfold calls. cbn [filter]. rewrite H. reflexivity.
Qed.

Lemma calls_suffix_nil (l1 l2 : list event) :
  calls (l1 ++ l2) = [] -> calls l2 = [].
Proof.
  rewrite calls_app. intros H.
  apply app_eq_nil in H. apply H.
Qed.

Lemma cycle_tail_of_no_calls (t : list event) : t = [] -> cycle_tail t.
Proof.
  intros ->.
  exists (cycle_calls 0 one_ask 0 0 flat_account some_stats).
  rewrite app_nil_r.
  exists 0, one_ask, 0, 0, flat_account, some_stats. reflexivity.
Qed.

Lemma lifecycle_app (l1 l2 : list event) :
  lifecycle (l1 ++ l2) = lifecycle l1 ++ lifecycle l2.
Proof. apply filter_app. Qed.

Lemma lifecycle_signal_logs (sigs : list signum) :
  lifecycle (signal_logs sigs) = [].
Proof.
  induction sigs as [|s rest IH]; [reflexivity|].
  exact IH.
Qed.

Lemma failure_signal_logs (sigs : list signum) :
  existsb startup_failure (signal_logs sigs) = false.
Proof.
  induction sigs as [|s rest IH]; [reflexivity|].
  exact IH.
Qed.

Lemma made_exchange_app (l1 l2 : list event) :
  made_exchange (l1 ++ l2) = made_exchange l1 || made_exchange l2.
Proof. apply existsb_app. Qed.

Lemma made_strategy_app (l1 l2 : list event) :
  made_strategy (l1 ++ l2) = made_strategy l1 || made_strategy l2.
Proof. apply existsb_app. Qed.

Lemma made_webserver_app (l1 l2 : list event) :
  made_webserver (l1 ++ l2) = made_webserver l1 || made_webserver l2.
Proof. apply existsb_app. Qed.

Lemma made_exchange_signal_logs (sigs : list signum) :
  made_exchange (signal_logs sigs) = false.
Proof.
  induction sigs as [|s rest IH]; [reflexivity|].
  exact IH.
Qed.

Lemma made_strategy_signal_logs (sigs : list signum) :
  made_strategy (signal_logs sigs) = false.
Proof.
  induction sigs as [|s rest IH]; [reflexivity|].
  exact IH.
Qed.

Lemma made_webserver_signal_logs (sigs : list signum) :
  made_webserver (signal_logs sigs) = false.
Proof.
  induction sigs as [|s rest IH]; [reflexivity|].
  exact IH.
Qed.

Lemma fixed_poll_signal_logs (sigs : list signum) :
  Forall fixed_poll (signal_logs sigs).
Proof.
  induction sigs as [|s rest IH]; constructor; [exact I | exact IH].
Qed.

Lemma filter_calls (p : event -> bool) (l : list event) :
  (forall e, is_signal_log e = true -> p e = false) ->
  filter p (calls l) = filter p l.
Proof.
  intros Hp.
  induction l as [|e l IH]; [reflexivity|].
  unfold calls in *. cbn [filter].
  destruct (is_signal_log e) eqn:E; cbn [negb filter].
  - rewrite (Hp e E). exact IH.
  - rewrite IH. reflexivity.
Qed.

Lemma existsb_calls (p : event -> bool) (l : list event) :
  (forall e, is_signal_log e = true -> p e = false) ->
  existsb p (calls l) = existsb p l.
Proof.
  intros Hp.
  induction l as [|e l IH]; [reflexivity|].
  unfold calls in *. cbn [filter existsb].
  destruct (is_signal_log e) eqn:E; cbn [negb existsb].
  - rewrite (Hp e E). exact IH.
  - rewrite IH. reflexivity.
Qed.

Lemma not_signal_log (p : event -> bool) :
  (forall fmt args, p (Ev_Logf fmt args) = false) ->
  forall e, is_signal_log e = true -> p e = false.
Proof.
  intros Hp e. destruct e; try discriminate. intros _. apply Hp.
Qed.

Lemma lifecycle_calls (l : list event) : lifecycle (calls l) = lifecycle l.
Proof.
  apply filter_calls. apply not_signal_log. reflexivity.
Qed.

Lemma quiet_calls (l : list event) : quiet (calls l) -> quiet l.
Proof.
  unfold quiet, made_exchange, made_strategy, made_webserver.
  rewrite !existsb_calls by (apply not_signal_log; reflexivity).
  intros H. exact H.
Qed.

Lemma quiet_app (l1 l2 : list event) : quiet l1 -> quiet l2 -> quiet (l1 ++ l2).
Proof.
  unfold quiet, made_exchange, made_strategy, made_webserver.
  intros (A1 & A2 & A3 & A4) (B1 & B2 & B3 & B4).
  rewrite !existsb_app, A1, A2, A3, A4, B1, B2, B3, B4.
  repeat split.
Qed.

Lemma teardown_quiet (a b c : bool) : quiet (teardown a b c).
Proof. destruct a, b, c; repeat split. Qed.

Lemma teardown_lifecycle (a b c : bool) :
  lifecycle (teardown a b c) = teardown a b c.
Proof. destruct a, b, c; reflexivity. Qed.

Lemma cycle_quiet (c : list event) : is_cycle c -> quiet c /\ lifecycle c = [].
Proof.
  intros (rc_d & d & rc_t & rc_a & a & st & ->).
  unfold cycle_calls.
  destruct (rc_d =? 0), (rc_a =? 0); repeat split.
Qed.

Lemma cycles_quiet (l : list event) : cycles l -> quiet l /\ lifecycle l = [].
Proof.
  induction 1 as [|c rest Hc _ (IHq & IHl)].
  - repeat split.
  - destruct (cycle_quiet c Hc) as (Hq & Hl).
    split; [apply quiet_app; assumption|].
    rewrite lifecycle_app, Hl, IHl. reflexivity.
Qed.

Lemma made_exchange_lifecycle (l : list event) :
  made_exchange (lifecycle l) = made_exchange l.
Proof.
  induction l as [|e l IH]; [reflexivity|].
  unfold lifecycle, made_exchange in *. cbn [filter].
  destruct e; cbn [is_lifecycle existsb]; rewrite ?IH; reflexivity.
Qed.

Lemma made_strategy_lifecycle (l : list event) :
  made_strategy (lifecycle l) = made_strategy l.
Proof.
  induction l as [|e l IH]; [reflexivity|].
  unfold lifecycle, made_strategy in *. cbn [filter].
  destruct e; cbn [is_lifecycle existsb]; rewrite ?IH; reflexivity.
Qed.

Lemma made_webserver_lifecycle (l : list event) :
  made_webserver (lifecycle l) = made_webserver l.
Proof.
  induction l as [|e l IH]; [reflexivity|].
  unfold lifecycle, made_webserver in *. cbn [filter].
  destruct e; cbn [is_lifecycle existsb]; rewrite ?IH; reflexivity.
Qed.

(** * Facts about the status text *)

Lemma truncate_fits (n : nat) (s : string) :
  (String.length s <= n)%nat -> truncate n s = s.
Proof.
  revert n.
  induction s as [|c s IH]; intros n H.
  - destruct n; reflexivity.
  - destruct n as [|n]; cbn [String.length] in H; [lia|].
    cbn [truncate]. rewrite IH by lia. reflexivity.
Qed.

Lemma status_text_line (stats : strategy_stats_t) :
  status_text stats = truncate 255 (status_line stats).
Proof. reflexivity. Qed.

Lemma last_char_append (s t : string) :
  t <> EmptyString -> last_char (s ++ t)%string = last_char t.
Proof.
  intros Ht.
  induction s as [|c s IH]; [reflexivity|].
  cbn [String.append last_char]. rewrite IH.
  destruct (s ++ t)%string eqn:E; [|reflexivity].
  destruct s; [cbn in E; congruence | discriminate].
Qed.

Lemma status_shape_ends (total daily trades : string) :
  last_char (status_shape total daily trades) = Some "}"%char.
Proof.
  unfold status_shape.
  repeat (rewrite last_char_append;
          [|destruct total, daily, trades; discriminate]).
  reflexivity.
Qed.

Create Rewrite HintDb log.

#[local] Hint Rewrite calls_app calls_signal_logs lifecycle_app
  lifecycle_signal_logs existsb_app failure_signal_logs
  made_exchange_app made_strategy_app made_webserver_app
  made_exchange_signal_logs made_strategy_signal_logs
  made_webserver_signal_logs signal_logs_are_signal_logs
  app_nil_r app_nil_l orb_false_r orb_false_l : log.

Ltac log_simpl :=
  autorewrite with log;
  repeat (rewrite calls_call by reflexivity);
  cbn [app];
  rewrite <- ?app_assoc;
  cbn [app].

(** * Running the primitives *)

Section Facts.

Context {W : Type} (P : platform W).

Lemma same_ptrs_refl (m : machine W) : same_ptrs m m.
Proof. repeat split. Qed.

Lemma same_ptrs_trans (m1 m2 m3 : machine W) :
  same_ptrs m1 m2 -> same_ptrs m2 m3 -> same_ptrs m1 m3.
Proof.
  intros (A1 & A2 & A3) (B1 & B2 & B3).
  repeat split; congruence.
Qed.

Lemma wired_same_ptrs (m m' : machine W) :
  same_ptrs m m' -> wired m -> wired m'.
Proof.
  intros (A1 & A2 & A3) (B1 & B2 & B3).
  repeat split; congruence.
Qed.

Lemma advances_refl (m : machine W) : advances m m [].
Proof.
  split; [symmetry; apply app_nil_r | reflexivity].
Qed.

Lemma advances_trans (m1 m2 m3 : machine W) (l1 l2 : list event) :
  advances m1 m2 l1 -> advances m2 m3 l2 -> advances m1 m3 (l1 ++ l2).
Proof.
  intros (T1 & R1) (T2 & R2).
  split.
  - rewrite T2, T1. symmetry. apply app_assoc.
  - rewrite existsb_app, R2, R1.
    destruct (existsb is_signal_log l1), (existsb is_signal_log l2);
      reflexivity.
Qed.

(** Once the flag is clear it stays clear. *)
Lemma advances_stopped (m m' : machine W) (l : list event) :
  advances m m' l -> g_running m = 0 -> g_running m' = 0.
Proof.
  intros (_ & R) Z0. rewrite R, Z0.
  destruct (existsb is_signal_log l); reflexivity.
Qed.

Lemma handle_signals_run (sigs : list signum) (m : machine W) :
  exists m',
    handle_signals sigs m = Returned tt m'
    /\ same_ptrs m m'
    /\ world m' = world m
    /\ advances m m' (signal_logs sigs).
Proof.
  revert m.
  induction sigs as [|s rest IH]; intros m.
  - exists m. repeat split. symmetry. apply app_nil_r.
  - cbn [handle_signals].
    unfold bind at 1. unfold handle_signal, bind, emit, set_g_running.
    match goal with
    | |- context [handle_signals rest ?m1] =>
        destruct (IH m1) as (m' & E & Hp & Hw & Ht & Hr)
    end.
    exists m'. rewrite E.
    split; [reflexivity|].
    split; [exact Hp|].
    split; [exact Hw|].
    split.
    + rewrite Ht. cbn [trace signal_logs map].
      rewrite <- app_assoc. reflexivity.
    + rewrite Hr.
      rewrite signal_logs_are_signal_logs.
      cbn [g_running].
      destruct rest; reflexivity.
Qed.

Lemma interrupts_run (m : machine W) :
  exists m',
    interrupts P m = Returned tt m'
    /\ same_ptrs m m'
    /\ world m' = snd (deliver P (world m))
    /\ advances m m' (signal_logs (fst (deliver P (world m)))).
Proof.
  unfold interrupts, bind, get.
  destruct (deliver P (world m)) as [sigs w'].
  unfold set_world.
  match goal with
  | |- context [handle_signals sigs ?m1] =>
      destruct (handle_signals_run sigs m1) as (m' & E & Hp & Hw & Ha)
  end.
  exists m'. rewrite E.
  repeat split; try apply Hp; try apply Ha.
  exact Hw.
Qed.

Lemma call_run {A : Type} (f : W -> A * W) (ev : A -> event)
    (m : machine W) :
  (forall a, is_signal_log (ev a) = false) ->
  let sigs := fst (deliver P (world m)) in
  let r := f (snd (deliver P (world m))) in
  exists m',
    call P f ev m = Returned (fst r) m'
    /\ same_ptrs m m'
    /\ world m' = snd r
    /\ advances m m' (signal_logs sigs ++ [ev (fst r)]).
Proof.
  intros Hev sigs r.
  unfold call. unfold bind at 1.
  destruct (interrupts_run m) as (m1 & E & Hp & Hw & Ht & Hr).
  rewrite E.
  unfold bind, get. rewrite Hw. fold r.
  destruct r as [a w'].
  unfold set_world, emit, ret.
  eexists. split; [reflexivity|].
  split; [exact Hp|].
  split; [reflexivity|].
  split.
  - cbn [trace fst]. rewrite Ht. fold sigs.
    symmetry. apply app_assoc.
  - cbn [g_running fst]. rewrite Hr. fold sigs.
    rewrite existsb_app. cbn [existsb]. rewrite Hev.
    rewrite !orb_false_r. reflexivity.
Qed.

Lemma Logf_run (fmt : string) (args : list printf_arg) (m : machine W) :
  is_signal_log (Ev_Logf fmt args) = false ->
  exists m',
    Logf P fmt args m = Returned tt m'
    /\ same_ptrs m m'
    /\ advances m m'
         (signal_logs (fst (deliver P (world m))) ++ [Ev_Logf fmt args]).
Proof.
  intros Hev.
  unfold Logf, bind.
  destruct (interrupts_run m) as (m1 & E & Hp & Hw & Ht & Hr).
  rewrite E. unfold emit.
  eexists. split; [reflexivity|].
  split; [exact Hp|].
  split.
  - cbn [trace]. rewrite Ht. symmetry. apply app_assoc.
  - cbn [g_running]. rewrite Hr.
    rewrite existsb_app. cbn [existsb]. rewrite Hev.
    rewrite !orb_false_r. reflexivity.
Qed.

End Facts.

(** Bookkeeping for symbolic runs: the log so far and the three pointers
    of the current machine. *)
Ltac accumulate Acc A :=
  apply (advances_trans _ _ _ _ _ Acc) in A; clear Acc; rename A into Acc.

Ltac carry Pk Ge Gs Gw :=
  let Q1 := fresh in
  let Q2 := fresh in
  let Q3 := fresh in
  destruct Pk as (Q1 & Q2 & Q3);
  rewrite Gs in Q1; rewrite Ge in Q2; rewrite Gw in Q3;
  clear Ge Gs Gw;
  rename Q1 into Gs; rename Q2 into Ge; rename Q3 into Gw.

Ltac use_codes :=
  repeat match goal with
         | H : (_ =? 0) = _ |- _ => rewrite H
         end.

Ltac startup_leaf Acc Ge Gs Gw :=
  eexists; split; [exact Acc|];
  unfold startup_post, wired; rewrite Ge, Gs, Gw;
  log_simpl; cbn; use_codes; cbn;
  repeat split; intros;
  try discriminate; try reflexivity; try lia;
  try (constructor; fail); auto.

Ltac accumulate_ptrs Pacc Pk :=
  apply (same_ptrs_trans _ _ _ Pacc) in Pk; clear Pacc; rename Pk into Pacc.

(** * A small program logic *)

Section Logic.

Context {W : Type} (P : platform W).

Lemma wp_ret {A : Type} (a : A) (m : machine W) Q U :
  Q a m -> wp (ret a) m Q U.
Proof. intros H. exact H. Qed.

Lemma wp_bind {A B : Type} (c : M W A) (k : A -> M W B) (m : machine W)
    Q U :
  wp c m (fun a m' => wp (k a) m' Q U) U -> wp (bind c k) m Q U.
Proof.
  unfold wp, bind. destruct (c m); intros H; exact H.
Qed.

Lemma wp_mono {A : Type} (c : M W A) (m : machine W)
    (Q Q' : A -> machine W -> Prop) (U U' : machine W -> Prop) :
  wp c m Q U ->
  (forall a m', Q a m' -> Q' a m') ->
  (forall m', U m' -> U' m') ->
  wp c m Q' U'.
Proof.
  unfold wp. destruct (c m); intros H HQ HU; auto.
Qed.

Lemma wp_get {A : Type} (field : machine W -> A) (m : machine W) Q U :
  Q (field m) m -> wp (get field) m Q U.
Proof. intros H. exact H. Qed.

Lemma wp_deref {A : Type} (field : machine W -> option A) (a : A)
    (m : machine W) Q U :
  field m = Some a -> Q a m -> wp (deref field) m Q U.
Proof.
  intros E H. unfold wp, deref, bind, get. rewrite E. exact H.
Qed.

Lemma wp_call {A : Type} (f : W -> A * W) (ev : A -> event)
    (m : machine W) Q U :
  (forall a, is_signal_log (ev a) = false) ->
  (forall sigs a m',
      same_ptrs m m' ->
      advances m m' (signal_logs sigs ++ [ev a]) ->
      Q a m') ->
  wp (call P f ev) m Q U.
Proof.
  intros Hev H. unfold wp.
  destruct (call_run P f ev m Hev) as (m' & E & Hp & _ & Ha).
  rewrite E. eapply H; eassumption.
Qed.

Lemma wp_call_ (f : W -> W) (ev : event) (m : machine W) Q U :
  is_signal_log ev = false ->
  (forall sigs m',
      same_ptrs m m' ->
      advances m m' (signal_logs sigs ++ [ev]) ->
      Q tt m') ->
  wp (call_ P f ev) m Q U.
Proof.
  intros Hev H. unfold call_.
  apply wp_call; [intros _; exact Hev|].
  intros sigs [] m' Hp Ha. eapply H; eassumption.
Qed.

Lemma wp_Logf (fmt : string) (args : list printf_arg) (m : machine W)
    Q U :
  is_signal_log (Ev_Logf fmt args) = false ->
  (forall sigs m',
      same_ptrs m m' ->
      advances m m' (signal_logs sigs ++ [Ev_Logf fmt args]) ->
      Q tt m') ->
  wp (Logf P fmt args) m Q U.
Proof.
  intros Hev H. unfold wp.
  destruct (Logf_run P fmt args m Hev) as (m' & E & Hp & Ha).
  rewrite E. eapply H; eassumption.
Qed.

Lemma wp_interrupts (m : machine W) Q U :
  (forall sigs m',
      same_ptrs m m' -> advances m m' (signal_logs sigs) -> Q tt m') ->
  wp (interrupts P) m Q U.
Proof.
  intros H. unfold wp.
  destruct (interrupts_run P m) as (m' & E & Hp & _ & Ha).
  rewrite E. eapply H; eassumption.
Qed.

Lemma wp_set_g_exchange (v : option (exchange_interface_t W))
    (m : machine W) Q U :
  (forall m',
      g_exchange m' = v ->
      g_strategy m' = g_strategy m ->
      g_webserver m' = g_webserver m ->
      advances m m' [] ->
      Q tt m') ->
  wp (set_g_exchange v) m Q U.
Proof.
  intros H. unfold wp, set_g_exchange.
  apply H; try reflexivity.
  split; [symmetry; apply app_nil_r | reflexivity].
Qed.

Lemma wp_set_g_strategy (v : option (strategy_interface_t W))
    (m : machine W) Q U :
  (forall m',
      g_exchange m' = g_exchange m ->
      g_strategy m' = v ->
      g_webserver m' = g_webserver m ->
      advances m m' [] ->
      Q tt m') ->
  wp (set_g_strategy v) m Q U.
Proof.
  intros H. unfold wp, set_g_strategy.
  apply H; try reflexivity.
  split; [symmetry; apply app_nil_r | reflexivity].
Qed.

Lemma wp_set_g_webserver (v : option (webserver_interface_t W))
    (m : machine W) Q U :
  (forall m',
      g_exchange m' = g_exchange m ->
      g_strategy m' = g_strategy m ->
      g_webserver m' = v ->
      advances m m' [] ->
      Q tt m') ->
  wp (set_g_webserver v) m Q U.
Proof.
  intros H. unfold wp, set_g_webserver.
  apply H; try reflexivity.
  split; [symmetry; apply app_nil_r | reflexivity].
Qed.

Lemma wp_emit (e : event) (m : machine W) Q U :
  is_signal_log e = false ->
  (forall m', same_ptrs m m' -> advances m m' [e] -> Q tt m') ->
  wp (emit e) m Q U.
Proof.
  intros He H. unfold wp, emit.
  apply H; [repeat split|].
  split; [reflexivity|].
  cbn [g_running existsb]. rewrite He. reflexivity.
Qed.

(** ** One polling cycle *)

Lemma loop_body_run (m : machine W) :
  wired m ->
  wp (loop_body P) m
     (fun _ m' =>
        same_ptrs m m'
        /\ exists l rc_depth depth rc_tick rc_account account stats,
             advances m m' l
             /\ calls l = cycle_calls rc_depth depth rc_tick
                            rc_account account stats)
     never.
Proof.
  intros (He & Hs & Hw).
  destruct (g_exchange m) as [ex|] eqn:Ee; [clear He|congruence].
  destruct (g_strategy m) as [st|] eqn:Es; [clear Hs|congruence].
  destruct (g_webserver m) as [ws|] eqn:Ew; [clear Hw|congruence].
  unfold loop_body.
  apply wp_bind. eapply wp_deref; [exact Ee|].
  apply wp_bind. apply wp_call; [reflexivity|].
  intros sg1 [rc_d d] m1 P1 A1. cbn [fst snd] in A1.
  apply wp_bind.
  assert (T : wp (if rc_d =? 0
                  then bind (deref g_strategy)
                         (fun st0 =>
                            bind (call P (strategy_on_tick st0 d 1)
                                    (Ev_on_tick d 1))
                              (fun _ => ret tt))
                  else ret tt) m1
                (fun _ m2 =>
                   same_ptrs m m2
                   /\ exists l rc_t,
                        advances m m2 l
                        /\ calls l
                           = [Ev_get_depth "BTC_USDT" rc_d d]
                               ++ (if rc_d =? 0
                                   then [Ev_on_tick d 1 rc_t] else []))
                never).
  { destruct (rc_d =? 0).
    - apply wp_bind. eapply wp_deref.
      { destruct P1 as (Q1 & _ & _). rewrite Q1. exact Es. }
      apply wp_bind. apply wp_call; [reflexivity|].
      intros sg2 rc_t m2 P2 A2.
      apply wp_ret.
      split; [eapply same_ptrs_trans; eassumption|].
      eexists; exists rc_t.
      split; [eapply advances_trans; eassumption|].
      log_simpl. reflexivity.
    - apply wp_ret.
      split; [exact P1|].
      eexists; exists 0.
      split; [exact A1|].
      log_simpl. reflexivity. }
  eapply wp_mono; [exact T| |intros ? []].
  clear T. intros _ m2 (P2 & l2 & rc_t & A2 & C2).
  apply wp_bind. eapply wp_deref.
  { destruct P2 as (_ & Q2 & _). rewrite Q2. exact Ee. }
  apply wp_bind. apply wp_call; [reflexivity|].
  intros sg3 [rc_a a] m3 P3 A3. cbn [fst snd] in A3.
  apply wp_bind.
  assert (T : wp (if rc_a =? 0
                  then bind (deref g_strategy)
                         (fun st0 =>
                            call_ P (strategy_on_account st0 a)
                              (Ev_on_account a))
                  else ret tt) m3
                (fun _ m4 =>
                   same_ptrs m m4
                   /\ exists l,
                        advances m m4 l
                        /\ calls l
                           = calls l2
                               ++ [Ev_get_account rc_a a]
                               ++ (if rc_a =? 0
                                   then [Ev_on_account a] else []))
                never).
  { assert (P03 : same_ptrs m m3) by (eapply same_ptrs_trans; eassumption).
    assert (A03 := advances_trans _ _ _ _ _ A2 A3).
    destruct (rc_a =? 0).
    - apply wp_bind. eapply wp_deref.
      { destruct P03 as (Q3 & _ & _). rewrite Q3. exact Es. }
      apply wp_call_; [reflexivity|].
      intros sg4 m4 P4 A4.
      split; [eapply same_ptrs_trans; eassumption|].
      eexists.
      split; [eapply advances_trans; eassumption|].
      log_simpl. reflexivity.
    - apply wp_ret.
      split; [exact P03|].
      eexists.
      split; [exact A03|].
      log_simpl. reflexivity. }
  eapply wp_mono; [exact T| |intros ? []].
  clear T. intros _ m4 (P4 & l4 & A4 & C4).
  apply wp_bind. eapply wp_deref.
  { destruct P4 as (Q4 & _ & _). rewrite Q4. exact Es. }
  apply wp_bind. apply wp_call; [reflexivity|].
  intros sg5 stats m5 P5 A5.
  apply wp_bind. eapply wp_deref.
  { destruct P4 as (_ & _ & Q4), P5 as (_ & _ & Q5).
    rewrite Q5, Q4. exact Ew. }
  apply wp_bind. apply wp_call_; [reflexivity|].
  intros sg6 m6 P6 A6.
  apply wp_call_; [reflexivity|].
  intros sg7 m7 P7 A7.
  split.
  { eapply same_ptrs_trans; [|exact P7].
    eapply same_ptrs_trans; [|exact P6].
    eapply same_ptrs_trans; eassumption. }
  eexists. exists rc_d, d, rc_t, rc_a, a, stats.
  split.
  { eapply advances_trans; [|exact A7].
    eapply advances_trans; [|exact A6].
    eapply advances_trans; eassumption. }
  log_simpl. rewrite C4, C2.
  unfold cycle_calls. rewrite <- ?app_assoc. reflexivity.
Qed.

(** ** Startup and teardown *)

Lemma init_framework_run (m : machine W) :
  g_exchange m = None -> g_strategy m = None -> g_webserver m = None ->
  wp (init_framework P) m
     (fun rc m' => exists l, advances m m' l /\ startup_post rc m' l)
     never.
Proof.
  intros Ge Gs Gw.
  assert (Acc := advances_refl m).
  unfold init_framework.
  (* the exchange *)
  apply wp_bind. apply wp_call; [reflexivity|].
  intros sg1 ex m1 P1 A1. carry P1 Ge Gs Gw. accumulate Acc A1.
  apply wp_bind. apply wp_set_g_exchange.
  intros m2 Ge' Gs' Gw' A2. rewrite Gs in Gs'. rewrite Gw in Gw'.
  clear Ge Gs Gw. accumulate Acc A2.
  apply wp_bind. apply wp_get. rewrite Ge'.
  apply wp_bind.
  destruct ex as [ex|].
  2: { apply wp_ret. apply wp_bind. apply wp_Logf; [reflexivity|].
       intros sg m3 P3 A3. carry P3 Ge' Gs' Gw'. accumulate Acc A3.
       apply wp_ret. startup_leaf Acc Ge' Gs' Gw'. }
  apply wp_bind. apply wp_call; [reflexivity|].
  intros sg2 rc1 m3 P3 A3. carry P3 Ge' Gs' Gw'. accumulate Acc A3.
  apply wp_ret.
  destruct (rc1 =? 0) eqn:E1; cbn [negb].
  2: { apply wp_bind. apply wp_Logf; [reflexivity|].
       intros sg m4 P4 A4. carry P4 Ge' Gs' Gw'. accumulate Acc A4.
       apply wp_ret. startup_leaf Acc Ge' Gs' Gw'. }
  (* the strategy *)
  apply wp_bind. apply wp_call; [reflexivity|].
  intros sg3 st m4 P4 A4. carry P4 Ge' Gs' Gw'. accumulate Acc A4.
  apply wp_bind. apply wp_set_g_strategy.
  intros m5 Ge Gs Gw A5. rewrite Ge' in Ge. rewrite Gw' in Gw.
  clear Ge' Gs' Gw'. accumulate Acc A5.
  apply wp_bind. apply wp_get. rewrite Gs.
  apply wp_bind.
  destruct st as [st|].
  2: { apply wp_ret. apply wp_bind. apply wp_Logf; [reflexivity|].
       intros sg m6 P6 A6. carry P6 Ge Gs Gw. accumulate Acc A6.
       apply wp_ret. startup_leaf Acc Ge Gs Gw. }
  apply wp_bind. apply wp_call; [reflexivity|].
  intros sg4 rc2 m6 P6 A6. carry P6 Ge Gs Gw. accumulate Acc A6.
  apply wp_ret.
  destruct (rc2 =? 0) eqn:E2; cbn [negb].
  2: { apply wp_bind. apply wp_Logf; [reflexivity|].
       intros sg m7 P7 A7. carry P7 Ge Gs Gw. accumulate Acc A7.
       apply wp_ret. startup_leaf Acc Ge Gs Gw. }
  (* the web server *)
  apply wp_bind. apply wp_call; [reflexivity|].
  intros sg5 ws m7 P7 A7. carry P7 Ge Gs Gw. accumulate Acc A7.
  apply wp_bind. apply wp_set_g_webserver.
  intros m8 Ge' Gs' Gw' A8. rewrite Ge in Ge'. rewrite Gs in Gs'.
  clear Ge Gs Gw. accumulate Acc A8.
  apply wp_bind. apply wp_get. rewrite Gw'.
  apply wp_bind.
  destruct ws as [ws|].
  2: { apply wp_ret. apply wp_bind. apply wp_Logf; [reflexivity|].
       intros sg m9 P9 A9. carry P9 Ge' Gs' Gw'. accumulate Acc A9.
       apply wp_ret. startup_leaf Acc Ge' Gs' Gw'. }
  apply wp_bind. apply wp_call; [reflexivity|].
  intros sg6 rc3 m9 P9 A9. carry P9 Ge' Gs' Gw'. accumulate Acc A9.
  apply wp_ret.
  destruct (rc3 =? 0) eqn:E3; cbn [negb].
  2: { apply wp_bind. apply wp_Logf; [reflexivity|].
       intros sg m10 P10 A10. carry P10 Ge' Gs' Gw'. accumulate Acc A10.
       apply wp_ret. startup_leaf Acc Ge' Gs' Gw'. }
  (* the strategy is registered with the web server *)
  apply wp_bind. eapply wp_deref; [exact Gw'|].
  apply wp_bind. eapply wp_deref; [exact Gs'|].
  apply wp_bind. apply wp_call_; [reflexivity|].
  intros sg7 m10 P10 A10. carry P10 Ge' Gs' Gw'. accumulate Acc A10.
  apply wp_ret. startup_leaf Acc Ge' Gs' Gw'.
Qed.

Lemma cleanup_run (m : machine W) :
  wp (cleanup P) m
     (fun _ m' =>
        same_ptrs m m'
        /\ exists l,
             advances m m' l
             /\ calls l = teardown (is_some (g_webserver m))
                            (is_some (g_strategy m))
                            (is_some (g_exchange m)))
     never.
Proof.
  destruct (g_webserver m) as [ws|] eqn:Gw;
    destruct (g_strategy m) as [st|] eqn:Gs;
    destruct (g_exchange m) as [ex|] eqn:Ge.
  all: assert (Acc := advances_refl m).
  all: assert (Pacc := same_ptrs_refl m).
  all: unfold cleanup.
  all: apply wp_bind; apply wp_get; rewrite Gw; apply wp_bind.
  all: first
         [ apply wp_ret
         | apply wp_bind; apply wp_call_; [reflexivity|];
           intros sg1 m1 P1 A1; accumulate Acc A1; accumulate_ptrs Pacc P1;
           apply wp_call_; [reflexivity|];
           intros sg2 m2 P2 A2; accumulate Acc A2; accumulate_ptrs Pacc P2 ].
  all: apply wp_bind; apply wp_get;
    try rewrite (proj1 Pacc); rewrite Gs; apply wp_bind.
  all: first
         [ apply wp_ret
         | apply wp_bind; apply wp_call_; [reflexivity|];
           intros sg3 m3 P3 A3; accumulate Acc A3; accumulate_ptrs Pacc P3;
           apply wp_call_; [reflexivity|];
           intros sg4 m4 P4 A4; accumulate Acc A4; accumulate_ptrs Pacc P4 ].
  all: apply wp_bind; apply wp_get;
    try rewrite (proj1 (proj2 Pacc)); rewrite Ge.
  all: first
         [ apply wp_ret
         | apply wp_bind; apply wp_call_; [reflexivity|];
           intros sg5 m5 P5 A5; accumulate Acc A5; accumulate_ptrs Pacc P5;
           apply wp_call_; [reflexivity|];
           intros sg6 m6 P6 A6; accumulate Acc A6; accumulate_ptrs Pacc P6 ].
  all: split; [exact Pacc|].
  all: eexists; split; [exact Acc|].
  all: log_simpl; reflexivity.
Qed.

(** ** The loop *)

Lemma main_loop_eq (fuel : nat) :
  main_loop P fuel
  = bind (interrupts P)
      (fun _ =>
         bind (get g_running)
           (fun running =>
              if running =? 0 then ret tt
              else
                match fuel with
                | O => out_of_fuel
                | S fuel' => bind (loop_body P) (fun _ => main_loop P fuel')
                end)).
Proof. destruct fuel; reflexivity. Qed.

Lemma main_loop_run (fuel : nat) :
  forall m : machine W,
    wired m ->
    wp (main_loop P fuel) m
       (fun _ m' =>
          same_ptrs m m'
          /\ exists l,
               advances m m' l
               /\ g_running m' = 0
               /\ cycles (calls l)
               /\ stops_after_signal l
               /\ (g_running m = 0 -> calls l = []))
       (fun m' =>
          same_ptrs m m'
          /\ exists l,
               advances m m' l
               /\ g_running m' <> 0
               /\ cycles (calls l)
               /\ existsb is_signal_log l = false).
Proof.
  induction fuel as [|fuel IH]; intros m Hm; rewrite main_loop_eq.
  all: apply wp_bind; apply wp_interrupts; intros sg m0 P0 A0.
  all: apply wp_bind; apply wp_get.
  all: destruct (g_running m0 =? 0) eqn:Erun.
  1, 3: apply wp_ret; split; [exact P0|];
    exists (signal_logs sg);
    split; [exact A0|];
    split; [apply Z.eqb_eq; exact Erun|];
    split; [rewrite calls_signal_logs; constructor|];
    split; [|intros _; apply calls_signal_logs];
    intros l1 e l2 E _;
    apply cycle_tail_of_no_calls;
    apply (calls_suffix_nil (l1 ++ [e]));
    rewrite <- app_assoc; cbn [app]; rewrite <- E;
    apply calls_signal_logs.
  - (* the fuel is spent *)
    apply Z.eqb_neq in Erun.
    unfold wp, out_of_fuel.
    split; [exact P0|].
    exists (signal_logs sg).
    split; [exact A0|].
    split; [exact Erun|].
    split; [rewrite calls_signal_logs; constructor|].
    destruct A0 as (_ & R0).
    destruct (existsb is_signal_log (signal_logs sg));
      [congruence|reflexivity].
  - (* one more cycle *)
    apply Z.eqb_neq in Erun.
    assert (Q0 : existsb is_signal_log (signal_logs sg) = false).
    { destruct A0 as (_ & R0).
      destruct (existsb is_signal_log (signal_logs sg));
        [congruence|reflexivity]. }
    assert (Hm0 : wired m0) by (eapply wired_same_ptrs; eassumption).
    apply wp_bind.
    eapply wp_mono; [exact (loop_body_run m0 Hm0)| |intros ? []].
    intros _ m1 (P1 & lb & rc_d & d & rc_t & rc_a & a & st & A1 & C1).
    assert (Hm1 : wired m1) by (eapply wired_same_ptrs; eassumption).
    assert (P01 : same_ptrs m m1) by (eapply same_ptrs_trans; eassumption).
    assert (A01 := advances_trans _ _ _ _ _ A0 A1).
    assert (Cb : is_cycle (calls lb)).
    { exists rc_d, d, rc_t, rc_a, a, st. exact C1. }
    eapply wp_mono; [exact (IH m1 Hm1)| |].
    + intros _ m2 (P2 & lr & A2 & R2 & C2 & S2 & Z2).
      split; [eapply same_ptrs_trans; eassumption|].
      exists ((signal_logs sg ++ lb) ++ lr).
      split; [eapply advances_trans; eassumption|].
      split; [exact R2|].
      split.
      { rewrite !calls_app, calls_signal_logs. cbn [app].
        constructor; assumption. }
      split.
      * intros l1 e l2 E He.
        rewrite signal_logs_are_signal_logs in Q0.
        destruct sg; [|discriminate]. cbn [signal_logs map app] in E.
        apply app_eq_app in E.
        destruct E as (l' & [(E1 & E2) | (E1 & E2)]).
        -- destruct l' as [|e' l''].
           ++ cbn [app] in E2. eapply (S2 []); [|exact He].
              cbn [app]. symmetry. exact E2.
           ++ cbn [app] in E2. injection E2 as <- ->.
              assert (R1 : g_running m1 = 0).
              { destruct A1 as (_ & R1). rewrite R1, E1.
                rewrite existsb_app. cbn [existsb]. rewrite He.
                rewrite orb_true_r. reflexivity. }
              rewrite calls_app, (Z2 R1), app_nil_r.
              exists (calls (l1 ++ [e])).
              rewrite <- calls_app, <- app_assoc. cbn [app].
              rewrite <- E1. exact Cb.
        -- eapply S2; [exact E2 | exact He].
      * intros Z0. exfalso. apply Erun.
        eapply advances_stopped; eassumption.
    + intros m2 (P2 & lr & A2 & R2 & C2 & Q2).
      split; [eapply same_ptrs_trans; eassumption|].
      exists ((signal_logs sg ++ lb) ++ lr).
      split; [eapply advances_trans; eassumption|].
      split; [exact R2|].
      split.
      { rewrite !calls_app, calls_signal_logs. cbn [app].
        constructor; assumption. }
      rewrite !existsb_app, Q0, Q2.
      destruct A2 as (_ & R2').
      rewrite Q2 in R2'.
      destruct A1 as (_ & R1).
      destruct (existsb is_signal_log lb); [|reflexivity].
      congruence.
Qed.

(** ** The whole program *)

Lemma running_of_boot (w : W) (m : machine W) (l : list event) :
  advances (boot w) m l ->
  trace m = l /\ g_running m = (if existsb is_signal_log l then 0 else 1).
Proof.
  intros (T & R). split; [exact T | exact R].
Qed.

Lemma exit_leaf (w : W) (m3 mb m' : machine W) (l mid lc : list event)
    (code : Z) :
  advances (boot w) m3 l ->
  built (lifecycle l) ->
  is_some (g_exchange m3) = made_exchange l ->
  is_some (g_strategy m3) = made_strategy l ->
  is_some (g_webserver m3) = made_webserver l ->
  same_ptrs m3 mb ->
  advances m3 mb mid ->
  lifecycle mid = [] ->
  same_ptrs mb m' ->
  advances mb m' lc ->
  calls lc = teardown (is_some (g_webserver mb)) (is_some (g_strategy mb))
               (is_some (g_exchange mb)) ->
  ((code = 1 /\ existsb startup_failure (l ++ mid) = true)
   \/ (code = 0 /\ existsb startup_failure (l ++ mid) = false
                /\ g_running mb = 0)) ->
  exit_post code m'.
Proof.
  intros A3 Hbuilt He Hs Hw Pb Ab Hmid P' A' Hlc Hcode.
  assert (Ab' := advances_trans _ _ _ _ _ A3 Ab).
  assert (Aall := advances_trans _ _ _ _ _ Ab' A').
  apply running_of_boot in Aall. destruct Aall as (T & R).
  apply running_of_boot in Ab'. destruct Ab' as (_ & Rb).
  destruct Pb as (Q1 & Q2 & Q3). destruct P' as (Q1' & Q2' & Q3').
  rewrite Q1, Q2, Q3, Hw, Hs, He in Hlc.
  assert (Hq : quiet lc).
  { apply quiet_calls. rewrite Hlc. apply teardown_quiet. }
  assert (Hl : lifecycle lc
               = teardown (made_webserver l) (made_strategy l)
                   (made_exchange l)).
  { rewrite <- lifecycle_calls, Hlc. apply teardown_lifecycle. }
  assert (Hm : made_exchange mid = false /\ made_strategy mid = false
               /\ made_webserver mid = false).
  { rewrite <- made_exchange_lifecycle, <- made_strategy_lifecycle,
      <- made_webserver_lifecycle, Hmid. repeat split. }
  destruct Hq as (F1 & F2 & F3 & F4). destruct Hm as (G1 & G2 & G3).
  unfold exit_post. cbn zeta. rewrite T.
  split.
  { destruct Hcode as [(-> & Hf) | (-> & Hf & Hr)].
    - left. split; [reflexivity|].
      rewrite existsb_app, Hf. reflexivity.
    - right. split; [reflexivity|].
      split; [rewrite existsb_app, Hf, F1; reflexivity|].
      rewrite existsb_app.
      rewrite Hr in Rb.
      destruct (existsb is_signal_log (l ++ mid)); [reflexivity|discriminate]. }
  split; [exact R|].
  split.
  { exists (lifecycle l).
    split; [exact Hbuilt|].
    rewrite !lifecycle_app, Hmid, Hl, app_nil_r.
    rewrite made_exchange_lifecycle, made_strategy_lifecycle,
      made_webserver_lifecycle.
    reflexivity. }
  rewrite Q1', Q2', Q3', Q1, Q2, Q3, He, Hs, Hw.
  rewrite !made_exchange_app, !made_strategy_app, !made_webserver_app.
  rewrite F2, F3, F4, G1, G2, G3, !orb_false_r.
  repeat split.
Qed.

Ltac failed_exit w Acc Pmid Mid Hf :=
  let sg := fresh "sg" in
  let ma := fresh "m" in
  let mb := fresh "m" in
  let Pa := fresh "P" in
  let Aa := fresh "A" in
  let Pb := fresh "P" in
  let Ab := fresh "A" in
  let lc := fresh "lc" in
  let Cb := fresh "C" in
  apply wp_bind; apply wp_Logf; [reflexivity|];
  intros sg ma Pa Aa;
  accumulate Mid Aa; accumulate_ptrs Pmid Pa;
  apply wp_bind; eapply wp_mono; [apply cleanup_run| |intros ? []];
  intros _ mb (Pb & lc & Ab & Cb);
  apply wp_ret;
  eapply (exit_leaf w _ ma mb); try eassumption;
  [ log_simpl; reflexivity
  | left; split; [reflexivity|];
    log_simpl; cbn; use_codes; rewrite Hf; cbn;
    rewrite ?orb_true_r; reflexivity ].

Lemma main_run (fuel : nat) (w : W) :
  wp (main P fuel) (boot w) exit_post still_running.
Proof.
  assert (Acc := advances_refl (boot w)).
  unfold main, signal.
  apply wp_bind. apply wp_emit; [reflexivity|].
  intros m1 P1 A1. accumulate Acc A1.
  apply wp_bind. apply wp_emit; [reflexivity|].
  intros m2 P2 A2. accumulate Acc A2.
  accumulate_ptrs P1 P2.
  apply wp_bind.
  eapply wp_mono;
    [apply (init_framework_run m2);
     rewrite (proj1 P1) || rewrite (proj1 (proj2 P1))
     || rewrite (proj2 (proj2 P1)); reflexivity
    | | intros ? []].
  intros rc m3 (l & A3 & Hrc & Hfail & Hwired & Hlife & Hbuilt
                & He & Hs & Hw).
  accumulate Acc A3.
  remember ((([] ++ [Ev_signal SIGINT]) ++ [Ev_signal SIGTERM]) ++ l)
    as L eqn:EL.
  assert (HlL : lifecycle L = lifecycle l) by (rewrite EL; reflexivity).
  assert (HfL : existsb startup_failure L = existsb startup_failure l)
    by (rewrite EL; reflexivity).
  assert (HeL : made_exchange L = made_exchange l)
    by (rewrite EL; reflexivity).
  assert (HsL : made_strategy L = made_strategy l)
    by (rewrite EL; reflexivity).
  assert (HwL : made_webserver L = made_webserver l)
    by (rewrite EL; reflexivity).
  rewrite <- HlL in Hbuilt, Hlife.
  rewrite <- HfL in Hfail.
  rewrite <- HeL in He. rewrite <- HsL in Hs. rewrite <- HwL in Hw.
  clear HlL HfL HeL HsL HwL EL l m1 m2 P1.
  assert (Pmid := same_ptrs_refl m3).
  assert (Mid := advances_refl m3).
  destruct Hrc as [-> | ->]; cbn [Z.eqb negb].
  2: { assert (Hf : existsb startup_failure L = true).
       { destruct (existsb startup_failure L); [reflexivity|].
         destruct Hfail as (_ & Hfail). discriminate (Hfail eq_refl). }
       failed_exit w Acc Pmid Mid Hf. }
  destruct Hfail as (Hfail & _). specialize (Hfail eq_refl).
  specialize (Hlife eq_refl).
  destruct (Hwired eq_refl) as (We & Ws & Ww). clear Hwired.
  destruct (g_exchange m3) as [ex|] eqn:Ge; [clear We|congruence].
  destruct (g_strategy m3) as [st|] eqn:Gs; [clear Ws|congruence].
  destruct (g_webserver m3) as [ws|] eqn:Gw; [clear Ww|congruence].
  rewrite <- Ge in He. rewrite <- Gs in Hs. rewrite <- Gw in Hw.
  apply wp_bind. eapply wp_deref; [exact Gw|].
  apply wp_bind. apply wp_call; [reflexivity|].
  intros sg1 rc1 m4 P4 A4.
  accumulate Mid A4. accumulate_ptrs Pmid P4.
  destruct (rc1 =? 0) eqn:E1; cbn [negb].
  2: { failed_exit w Acc Pmid Mid Hfail. }
  apply wp_bind. eapply wp_deref; [rewrite (proj1 Pmid); exact Gs|].
  apply wp_bind. apply wp_call; [reflexivity|].
  intros sg2 rc2 m5 P5 A5.
  accumulate Mid A5. accumulate_ptrs Pmid P5.
  destruct (rc2 =? 0) eqn:E2; cbn [negb].
  2: { failed_exit w Acc Pmid Mid Hfail. }
  apply wp_bind. apply wp_Logf; [reflexivity|].
  intros sg3 m6 P6 A6.
  accumulate Mid A6. accumulate_ptrs Pmid P6.
  assert (Hm6 : wired m6).
  { apply (wired_same_ptrs m3); [exact Pmid|].
    unfold wired. rewrite Ge, Gs, Gw. repeat split; discriminate. }
  apply wp_bind.
  eapply wp_mono; [exact (main_loop_run fuel m6 Hm6)| |].
  - intros _ m7 (P7 & ll & A7 & R7 & C7 & _ & _).
    destruct (cycles_quiet _ C7) as (Hq & Hl).
    rewrite lifecycle_calls in Hl.
    apply quiet_calls in Hq. destruct Hq as (Hq & _).
    accumulate Mid A7. accumulate_ptrs Pmid P7.
    apply wp_bind. eapply wp_mono; [apply cleanup_run| |intros ? []].
    intros _ m8 (P8 & lc & A8 & C8).
    apply wp_ret.
    eapply (exit_leaf w m3 m7 m8); try eassumption.
    + log_simpl. exact Hl.
    + right. split; [reflexivity|].
      split; [|exact R7].
      log_simpl. cbn. rewrite Hfail, Hq, E1, E2. reflexivity.
  - intros m7 (P7 & ll & A7 & R7 & C7 & Q7).
    destruct (cycles_quiet _ C7) as (Hq & Hl).
    rewrite lifecycle_calls in Hl.
    apply quiet_calls in Hq. destruct Hq as (Hq & _).
    accumulate Mid A7.
    assert (All := advances_trans _ _ _ _ _ Acc Mid).
    apply running_of_boot in All. destruct All as (T & R).
    unfold still_running. cbn zeta. rewrite T.
    destruct (existsb is_signal_log (L ++ _)) eqn:Es in R;
      [congruence|].
    split.
    { log_simpl. cbn. rewrite Hfail, Hq, E1, E2. reflexivity. }
    split; [exact Es|].
    split; [exact R|].
    log_simpl. cbn [lifecycle filter is_lifecycle app].
    rewrite Hl, app_nil_r. exact Hlife.
Qed.
(** ** The polls are fixed *)

Lemma keeps_ret {A : Type} (a : A) : keeps_polls_fixed (W:=W) (ret a).
Proof.
  intros m. exists []. split; [symmetry; apply app_nil_r | constructor].
Qed.

Lemma keeps_crash {A : Type} : keeps_polls_fixed (W:=W) (@crash W A).
Proof.
  intros m. exists []. split; [symmetry; apply app_nil_r | constructor].
Qed.

Lemma keeps_out_of_fuel {A : Type} :
  keeps_polls_fixed (W:=W) (@out_of_fuel W A).
Proof.
  intros m. exists []. split; [symmetry; apply app_nil_r | constructor].
Qed.

Lemma keeps_get {A : Type} (field : machine W -> A) :
  keeps_polls_fixed (get field).
Proof.
  intros m. exists []. split; [symmetry; apply app_nil_r | constructor].
Qed.

Lemma keeps_bind {A B : Type} (c : M W A) (k : A -> M W B) :
  keeps_polls_fixed c ->
  (forall a, keeps_polls_fixed (k a)) ->
  keeps_polls_fixed (bind c k).
Proof.
  intros Hc Hk m.
  destruct (Hc m) as (l1 & T1 & F1).
  unfold bind.
  destruct (c m) as [a m'|m'|m']; cbn [final] in *.
  - destruct (Hk a m') as (l2 & T2 & F2).
    exists (l1 ++ l2).
    split; [rewrite T2, T1; symmetry; apply app_assoc|].
    apply Forall_app. split; assumption.
  - exists l1. split; assumption.
  - exists l1. split; assumption.
Qed.

Lemma keeps_emit (e : event) :
  fixed_poll e -> keeps_polls_fixed (W:=W) (emit e).
Proof.
  intros He m. exists [e]. split; [reflexivity|].
  constructor; [exact He | constructor].
Qed.

Lemma keeps_interrupts : keeps_polls_fixed (interrupts P).
Proof.
  intros m.
  destruct (interrupts_run P m) as (m' & E & _ & _ & T & _).
  exists (signal_logs (fst (deliver P (world m)))).
  rewrite E. split; [exact T|].
  apply fixed_poll_signal_logs.
Qed.

Lemma keeps_deref {A : Type} (field : machine W -> option A) :
  keeps_polls_fixed (deref field).
Proof.
  unfold deref. apply keeps_bind; [apply keeps_get|].
  intros [a|]; [apply keeps_ret | apply keeps_crash].
Qed.

Lemma keeps_set_world (w : W) : keeps_polls_fixed (set_world w).
Proof.
  intros m. exists []. split; [symmetry; apply app_nil_r | constructor].
Qed.

Lemma keeps_call {A : Type} (f : W -> A * W) (ev : A -> event) :
  (forall a, fixed_poll (ev a)) -> keeps_polls_fixed (call P f ev).
Proof.
  intros Hev. unfold call.
  apply keeps_bind; [apply keeps_interrupts|]. intros _.
  apply keeps_bind; [apply keeps_get|]. intros w.
  destruct (f w) as [a w'].
  apply keeps_bind; [apply keeps_set_world|]. intros _.
  apply keeps_bind; [apply keeps_emit; apply Hev|]. intros _.
  apply keeps_ret.
Qed.

Lemma keeps_call_ (f : W -> W) (ev : event) :
  fixed_poll ev -> keeps_polls_fixed (call_ P f ev).
Proof.
  intros Hev. unfold call_. apply keeps_call. intros _. exact Hev.
Qed.

Lemma keeps_Logf (fmt : string) (args : list printf_arg) :
  keeps_polls_fixed (Logf P fmt args).
Proof.
  unfold Logf.
  apply keeps_bind; [apply keeps_interrupts|]. intros _.
  apply keeps_emit. exact I.
Qed.

Lemma keeps_set_g_exchange v : keeps_polls_fixed (W:=W) (set_g_exchange v).
Proof.
  intros m. exists []. split; [symmetry; apply app_nil_r | constructor].
Qed.

Lemma keeps_set_g_strategy v : keeps_polls_fixed (W:=W) (set_g_strategy v).
Proof.
  intros m. exists []. split; [symmetry; apply app_nil_r | constructor].
Qed.

Lemma keeps_set_g_webserver v : keeps_polls_fixed (W:=W) (set_g_webserver v).
Proof.
  intros m. exists []. split; [symmetry; apply app_nil_r | constructor].
Qed.

Ltac keeps_step :=
  first
    [ apply keeps_ret
    | apply keeps_get
    | apply keeps_interrupts
    | apply keeps_deref
    | apply keeps_Logf
    | apply keeps_set_g_exchange
    | apply keeps_set_g_strategy
    | apply keeps_set_g_webserver
    | apply keeps_call; intros; exact I
    | apply keeps_call; intros; reflexivity
    | apply keeps_call_; exact I
    | apply keeps_emit; exact I
    | apply keeps_bind; [|intros ?]
    | match goal with
      | |- keeps_polls_fixed (match ?x with _ => _ end) => destruct x
      end ].

Lemma keeps_init_framework : keeps_polls_fixed (init_framework P).
Proof.
  unfold init_framework. repeat keeps_step.
Qed.

Lemma keeps_cleanup : keeps_polls_fixed (cleanup P).
Proof.
  unfold cleanup. repeat keeps_step.
Qed.

Lemma keeps_loop_body : keeps_polls_fixed (loop_body P).
Proof.
  unfold loop_body. repeat keeps_step.
Qed.

Lemma keeps_main_loop (fuel : nat) : keeps_polls_fixed (main_loop P fuel).
Proof.
  induction fuel as [|fuel IH]; rewrite main_loop_eq.
  - apply keeps_bind; [apply keeps_interrupts|]. intros _.
    apply keeps_bind; [apply keeps_get|]. intros running.
    destruct (running =? 0); [apply keeps_ret | apply keeps_out_of_fuel].
  - apply keeps_bind; [apply keeps_interrupts|]. intros _.
    apply keeps_bind; [apply keeps_get|]. intros running.
    destruct (running =? 0); [apply keeps_ret|].
    apply keeps_bind; [apply keeps_loop_body|]. intros _. exact IH.
Qed.

Lemma keeps_main (fuel : nat) : keeps_polls_fixed (main P fuel).
Proof.
  unfold main, signal.
  repeat first [ apply keeps_init_framework | apply keeps_cleanup
               | apply keeps_main_loop | keeps_step ].
Qed.

(** ** More fuel changes no result *)

Lemma bind_returned {A B : Type} (c : M W A) (k : A -> M W B)
    (m m'' : machine W) (b : B) :
  bind c k m = Returned b m'' ->
  exists a m', c m = Returned a m' /\ k a m' = Returned b m''.
Proof.
  unfold bind. destruct (c m) as [a m'|m'|m']; try discriminate.
  intros H. exists a, m'. split; [reflexivity | exact H].
Qed.

Lemma main_loop_more_fuel (fuel extra : nat) :
  forall (m m' : machine W),
    main_loop P fuel m = Returned tt m' ->
    main_loop P (fuel + extra) m = Returned tt m'.
Proof.
  induction fuel as [|fuel IH]; intros m m' H.
  all: rewrite main_loop_eq in H; rewrite main_loop_eq.
  all: apply bind_returned in H; destruct H as ([] & m0 & E0 & H).
  all: unfold bind at 1; rewrite E0.
  all: unfold bind at 1, get; unfold bind at 1, get in H.
  all: destruct (g_running m0 =? 0); [exact H|].
  - discriminate H.
  - apply bind_returned in H. destruct H as ([] & m1 & E1 & H).
    cbn [Nat.add]. unfold bind. rewrite E1. apply IH. exact H.
Qed.

Lemma main_more_fuel (fuel extra : nat) (m m' : machine W) (code : Z) :
  main P fuel m = Returned code m' ->
  main P (fuel + extra) m = Returned code m'.
Proof.
  unfold main. intros H.
  repeat
    (match type of H with
     | bind (main_loop P fuel) _ _ = _ =>
         let a := fresh "a" in
         let mk := fresh "m" in
         let E := fresh "E" in
         apply bind_returned in H; destruct H as (a & mk & E & H);
         destruct a; apply (main_loop_more_fuel fuel extra) in E;
         unfold bind at 1; rewrite E
     | bind _ _ _ = _ =>
         let a := fresh "a" in
         let mk := fresh "m" in
         let E := fresh "E" in
         apply bind_returned in H; destruct H as (a & mk & E & H);
         unfold bind at 1; rewrite E
     | (if ?b then _ else _) _ = _ => destruct b
     end).
  all: exact H.
Qed.

(** ** Outcomes spelled out *)

Lemma loop_body_returns (m : machine W) :
  wired m ->
  exists m' l rc_depth depth rc_tick rc_account account stats,
    loop_body P m = Returned tt m'
    /\ same_ptrs m m'
    /\ advances m m' l
    /\ calls l = cycle_calls rc_depth depth rc_tick rc_account account stats.
Proof.
  intros Hm.
  assert (H := loop_body_run m Hm). unfold wp in H.
  destruct (loop_body P m) as [[] m'| |]; try contradiction.
  destruct H as (Hp & l & rc_d & d & rc_t & rc_a & a & st & Ha & Hc).
  exists m', l, rc_d, d, rc_t, rc_a, a, st.
  split; [reflexivity|].
  split; [exact Hp|].
  split; [exact Ha | exact Hc].
Qed.

Lemma main_loop_outcome (fuel : nat) (m : machine W) :
  wired m ->
  exists l,
    advances m (final (main_loop P fuel m)) l
    /\ crashed (main_loop P fuel m) = false
    /\ cycles (calls l)
    /\ stops_after_signal l
    /\ (existsb is_signal_log l = true ->
        returned (main_loop P fuel m) = true)
    /\ (returned (main_loop P fuel m) = true ->
        g_running (final (main_loop P fuel m)) = 0).
Proof.
  intros Hm.
  assert (H := main_loop_run fuel m Hm). unfold wp in H.
  destruct (main_loop P fuel m) as [[] m'|m'|m']; try contradiction.
  - destruct H as (_ & l & Ha & Hr & Hc & Hs & _).
    exists l. cbn [final crashed returned].
    split; [exact Ha|].
    split; [reflexivity|].
    split; [exact Hc|].
    split; [exact Hs|].
    split; intros _; [reflexivity | exact Hr].
  - destruct H as (_ & l & Ha & Hr & Hc & Hq).
    exists l. cbn [final crashed returned].
    split; [exact Ha|].
    split; [reflexivity|].
    split; [exact Hc|].
    split.
    { intros l1 e l2 -> He.
      rewrite existsb_app in Hq. cbn [existsb] in Hq. rewrite He in Hq.
      rewrite orb_true_r in Hq. discriminate. }
    rewrite Hq. split; discriminate.
Qed.

End Logic.

(** * The orchestration loop *)

Section Loop.

Context {W : Type} (P : platform W).

(** C1.  Every iteration of the orchestration loop performs its steps in
    one fixed order: it polls the depth; if that poll returned 0 it hands
    the snapshot to [on_tick]; it polls the account; if that poll returned 0
    it hands the account to [on_account]; it reads the statistics;
    it broadcasts the status record written from those statistics, as far
    as the 255 characters of [status] hold it; it sleeps for 100000
    microseconds.  A single cycle makes exactly these calls, and the
    calls of any run of the loop are a sequence of such cycles. *)
Theorem cycle_steps_in_order (m : machine W) :
  wired m ->
  (exists m' l rc_depth depth rc_tick rc_account account stats,
      loop_body P m = Returned tt m'
      /\ trace m' = trace m ++ l
      /\ calls l
         = [Ev_get_depth "BTC_USDT" rc_depth depth]
             ++ (if rc_depth =? 0 then [Ev_on_tick depth 1 rc_tick] else [])
             ++ [Ev_get_account rc_account account]
             ++ (if rc_account =? 0 then [Ev_on_account account] else [])
             ++ [Ev_get_stats stats;
                 Ev_broadcast (truncate 255 (status_line stats));
                 Ev_usleep 100000])
  /\ (forall fuel,
         exists l,
           trace (final (main_loop P fuel m)) = trace m ++ l
           /\ cycles (calls l)).
Proof.
  intros Hm. split.
  - destruct (loop_body_returns P m Hm)
      as (m' & l & rc_d & d & rc_t & rc_a & a & st & E & _ & (T & _) & C).
    exists m', l, rc_d, d, rc_t, rc_a, a, st.
    split; [exact E|].
    split; [exact T | exact C].
  - intros fuel.
    destruct (main_loop_outcome P fuel m Hm) as (l & (T & _) & _ & C & _).
    exists l. split; [exact T | exact C].
Qed.

(** C2.  The signal handler clears the stop flag, for either signal, and
    running it a second time leaves the flag, the pointers and the world as
    the first run left them.  The loop reads the flag only before a cycle:
    the calls of any run are whole cycles, broadcast and sleep included;
    after any run of the handler what is still called is the end of the one
    cycle under way; and the loop has then returned. *)
Theorem signal_stops_after_cycle :
  (forall sig (m : machine W),
      exists m',
        handle_signal sig m = Returned tt m'
        /\ g_running m' = 0
        /\ trace m' = trace m ++ [Ev_Logf signal_message [Arg_int sig]])
  /\ (forall sig1 sig2 (m : machine W),
         let once := final (handle_signal sig1 m) in
         let twice := final (handle_signal sig2 once) in
         g_running twice = g_running once
         /\ same_ptrs once twice
         /\ world twice = world once)
  /\ (forall fuel (m : machine W),
         wired m ->
         exists l,
           trace (final (main_loop P fuel m)) = trace m ++ l
           /\ cycles (calls l)
           /\ stops_after_signal l
           /\ (existsb is_signal_log l = true ->
               returned (main_loop P fuel m) = true)).
Proof.
  split; [|split].
  - intros sig m. eexists. split; [reflexivity|].
    split; reflexivity.
  - intros sig1 sig2 m. cbn. repeat split.
  - intros fuel m Hm.
    destruct (main_loop_outcome P fuel m Hm)
      as (l & (T & _) & _ & C & S & R & _).
    exists l. repeat split; assumption.
Qed.

(** C3.  In every cycle the depth is polled once.  When that poll fails
    (returns nonzero) the cycle still polls the account, reads the
    statistics, broadcasts the status and sleeps; the depth is not polled
    again in the cycle. *)
Theorem depth_failure_is_passed_over (m : machine W) :
  wired m ->
  exists m' l rc_depth depth rest,
    loop_body P m = Returned tt m'
    /\ trace m' = trace m ++ l
    /\ calls l = Ev_get_depth "BTC_USDT" rc_depth depth :: rest
    /\ filter is_get_depth rest = []
    /\ (rc_depth <> 0 ->
        exists rc_account account stats,
          rest = [Ev_get_account rc_account account]
                   ++ (if rc_account =? 0 then [Ev_on_account account]
                       else [])
                   ++ [Ev_get_stats stats; Ev_broadcast (status_text stats);
                       Ev_usleep 100000]).
Proof.
  intros Hm.
  destruct (loop_body_returns P m Hm)
    as (m' & l & rc_d & d & rc_t & rc_a & a & st & E & _ & (T & _) & C).
  exists m', l, rc_d, d.
  eexists.
  split; [exact E|].
  split; [exact T|].
  split; [exact C|].
  split.
  - destruct (rc_d =? 0), (rc_a =? 0); reflexivity.
  - intros Hrc. apply Z.eqb_neq in Hrc. rewrite Hrc.
    exists rc_a, a, st. reflexivity.
Qed.

End Loop.

Section Cycle.

Context {W : Type} (P : platform W).

(** C6, as amended.  Once in every polling cycle the status sink's
    broadcast is called, and the statistics are read once.  The text
    broadcast is the first 255 characters of the record
    [{"total_profit":<number>,"daily_profit":<number>,"trades":<integer>}]
    written from the [total_profit], [daily_profit] and [total_trades] of the
    statistics read in that cycle; it is the whole record whenever the record
    is at most 255 characters long. *)
Theorem status_broadcast_once (m : machine W) :
  wired m ->
  exists m' l stats,
    loop_body P m = Returned tt m'
    /\ trace m' = trace m ++ l
    /\ filter is_get_stats l = [Ev_get_stats stats]
    /\ filter is_broadcast l
       = [Ev_broadcast (truncate 255 (status_line stats))]
    /\ ((String.length (status_line stats) <= 255)%nat ->
        filter is_broadcast l = [Ev_broadcast (status_line stats)]).
Proof.
  intros Hm.
  destruct (loop_body_returns P m Hm)
    as (m' & l & rc_d & d & rc_t & rc_a & a & st & E & _ & (T & _) & C).
  exists m', l, st.
  split; [exact E|].
  split; [exact T|].
  assert (Hs : filter is_get_stats l = [Ev_get_stats st]).
  { rewrite <- (filter_calls is_get_stats l)
      by (apply not_signal_log; reflexivity).
    rewrite C. unfold cycle_calls.
    destruct (rc_d =? 0), (rc_a =? 0); reflexivity. }
  assert (Hb : filter is_broadcast l
               = [Ev_broadcast (truncate 255 (status_line st))]).
  { rewrite <- (filter_calls is_broadcast l)
      by (apply not_signal_log; reflexivity).
    rewrite C. unfold cycle_calls.
    destruct (rc_d =? 0), (rc_a =? 0); reflexivity. }
  split; [exact Hs|].
  split; [exact Hb|].
  intros Hlen. rewrite Hb, truncate_fits by exact Hlen. reflexivity.
Qed.

(** C7, as amended.  When the depth poll of a cycle fails (returns nonzero)
    the cycle does not call [on_tick], and when the account poll fails it
    does not call [on_account].  The cycle itself logs nothing: the only
    lines logged while it runs are those of the signal handler. *)
Theorem failed_polls_skip_callbacks (m : machine W) :
  wired m ->
  exists m' l,
    loop_body P m = Returned tt m'
    /\ trace m' = trace m ++ l
    /\ (forall symbol rc depth,
           In (Ev_get_depth symbol rc depth) l -> rc <> 0 ->
           filter is_on_tick l = [])
    /\ (forall rc account,
           In (Ev_get_account rc account) l -> rc <> 0 ->
           filter is_on_account l = [])
    /\ filter is_log (calls l) = []
    /\ Forall (fun e => is_log e = true -> is_signal_log e = true) l.
Proof.
  intros Hm.
  destruct (loop_body_returns P m Hm)
    as (m' & l & rc_d & d & rc_t & rc_a & a & st & E & _ & (T & _) & C).
  exists m', l.
  split; [exact E|].
  split; [exact T|].
  assert (Hin : forall e, is_signal_log e = false -> In e l ->
                          In e (cycle_calls rc_d d rc_t rc_a a st)).
  { intros e He Hi. rewrite <- C. apply filter_In.
    split; [exact Hi | rewrite He; reflexivity]. }
  assert (Hlog : filter is_log (calls l) = []).
  { rewrite C. unfold cycle_calls.
    destruct (rc_d =? 0), (rc_a =? 0); reflexivity. }
  split; [|split; [|split; [exact Hlog|]]].
  - intros symbol rc depth Hi Hrc.
    apply Hin in Hi; [|reflexivity].
    rewrite <- (filter_calls is_on_tick l)
      by (apply not_signal_log; reflexivity).
    rewrite C. unfold cycle_calls in *.
    destruct (rc_d =? 0) eqn:Ed.
    + apply Z.eqb_eq in Ed. subst rc_d.
      destruct (rc_a =? 0); cbn in Hi;
        repeat (destruct Hi as [Hi|Hi]; try discriminate Hi;
                try contradiction Hi);
        injection Hi as _ <- _; contradiction Hrc; reflexivity.
    + destruct (rc_a =? 0); reflexivity.
  - intros rc account Hi Hrc.
    apply Hin in Hi; [|reflexivity].
    rewrite <- (filter_calls is_on_account l)
      by (apply not_signal_log; reflexivity).
    rewrite C. unfold cycle_calls in *.
    destruct (rc_a =? 0) eqn:Ea.
    + apply Z.eqb_eq in Ea. subst rc_a.
      destruct (rc_d =? 0); cbn in Hi;
        repeat (destruct Hi as [Hi|Hi]; try discriminate Hi;
                try contradiction Hi);
        injection Hi as <- _; contradiction Hrc; reflexivity.
    + destruct (rc_d =? 0); reflexivity.
  - apply Forall_forall. intros e Hi Hl.
    destruct (is_signal_log e) eqn:He; [reflexivity|].
    assert (Hc : In e (filter is_log (calls l))).
    { apply filter_In. split; [|exact Hl].
      apply filter_In. split; [exact Hi | rewrite He; reflexivity]. }
    rewrite Hlog in Hc. contradiction Hc.
Qed.


(** C9.  When the stop flag is already clear as the main loop is entered,
    the loop returns at once: the body runs zero times, so that [main.c]
    calls neither the exchange nor the strategy nor the broadcast, and the
    pointers are left as they were. *)
Theorem stopped_loop_does_nothing (fuel : nat) (m : machine W) :
  g_running m = 0 ->
  exists m' l,
    main_loop P fuel m = Returned tt m'
    /\ trace m' = trace m ++ l
    /\ calls l = []
    /\ same_ptrs m m'
    /\ world m' = snd (deliver P (world m)).
Proof.
  intros Hz.
  rewrite main_loop_eq. unfold bind at 1.
  destruct (interrupts_run P m) as (m0 & E & Hp & Hw & Ha).
  rewrite E. unfold bind, get.
  rewrite (advances_stopped m m0 _ Ha Hz). cbn [Z.eqb].
  exists m0, (signal_logs (fst (deliver P (world m)))).
  split; [reflexivity|].
  split; [apply Ha|].
  split; [apply calls_signal_logs|].
  split; [exact Hp | exact Hw].
Qed.

End Cycle.

(** * The whole program *)

Section Process.

Context {W : Type} (P : platform W).

(** C4.  The process never dereferences a null pointer.  When [main]
    returns, the exit code is 1 exactly if a startup step failed (the
    creation or the [init] of the exchange, of the strategy or of the web
    server, the start of the web server, the start of the strategy), and it
    is 0 exactly if none failed and the signal handler has run, which is
    what ends the main loop.  As long as no startup step has failed and no
    signal has been handled, the loop is still running.  Once [main] has
    returned, more fuel changes neither the exit code nor the machine. *)
Theorem exit_codes (fuel : nat) (w : W) :
  match main P fuel (boot w) with
  | Returned code m' =>
      (code = 1 /\ existsb startup_failure (trace m') = true)
      \/ (code = 0 /\ existsb startup_failure (trace m') = false
                   /\ existsb is_signal_log (trace m') = true
                   /\ g_running m' = 0)
  | Unfinished m' =>
      existsb startup_failure (trace m') = false
      /\ existsb is_signal_log (trace m') = false
  | Crashed _ => False
  end
  /\ (forall code m' extra,
         main P fuel (boot w) = Returned code m' ->
         main P (fuel + extra) (boot w) = Returned code m').
Proof.
  split.
  - assert (H := main_run P fuel w). unfold wp in H.
    destruct (main P fuel (boot w)) as [code m'|m'|m'].
    + destruct H as (Hcode & Hr & _).
      destruct Hcode as [(-> & Hf) | (-> & Hf & Hs)].
      * left. split; [reflexivity | exact Hf].
      * right. rewrite Hs in Hr. repeat split; assumption.
    + exact H.
    + destruct H as (Hf & Hs & _). split; assumption.
  - intros code m' extra H. apply main_more_fuel. exact H.
Qed.

(** C5.  On every path on which [main] returns, the log of constructions
    and destructions reads: the components created in the order exchange,
    strategy, web server, each only once the one before it exists; then the
    teardown in the reverse order, web server, strategy, exchange, each
    with [cleanup] before [destroy], and each exactly if its creation had
    returned a pointer that is not null. *)
Theorem teardown_reverses_construction (fuel : nat) (w : W) (code : Z)
    (m' : machine W) :
  main P fuel (boot w) = Returned code m' ->
  exists cs,
    built cs
    /\ lifecycle (trace m')
       = cs
           ++ (if made_webserver cs
               then [Ev_webserver_cleanup; Ev_destroy_webserver] else [])
           ++ (if made_strategy cs
               then [Ev_strategy_cleanup; Ev_destroy_strategy] else [])
           ++ (if made_exchange cs
               then [Ev_exchange_cleanup; Ev_destroy_exchange] else [])
    /\ is_some (g_webserver m') = made_webserver cs
    /\ is_some (g_strategy m') = made_strategy cs
    /\ is_some (g_exchange m') = made_exchange cs.
Proof.
  intros E.
  assert (H := main_run P fuel w). unfold wp in H. rewrite E in H.
  destruct H as (_ & _ & (cs & Hb & Hl) & He & Hs & Hw).
  exists cs.
  split; [exact Hb|].
  split; [exact Hl|].
  assert (Hq := teardown_quiet (made_webserver cs) (made_strategy cs)
                  (made_exchange cs)).
  destruct Hq as (_ & Q1 & Q2 & Q3).
  rewrite <- made_exchange_lifecycle in He.
  rewrite <- made_strategy_lifecycle in Hs.
  rewrite <- made_webserver_lifecycle in Hw.
  rewrite Hl in He, Hs, Hw.
  rewrite made_exchange_app, Q1, orb_false_r in He.
  rewrite made_strategy_app, Q2, orb_false_r in Hs.
  rewrite made_webserver_app, Q3, orb_false_r in Hw.
  repeat split; assumption.
Qed.

(** C10.  Every depth poll the program makes names the symbol [BTC_USDT],
    a literal of [main_loop], and every call of [on_tick] passes
    [depth_count = 1]: this holds of all that a run of the main loop adds
    to the log, from any machine and however the run ends, and of the whole
    log of [main]. *)
Theorem polls_are_fixed :
  (forall fuel (m : machine W),
      exists l,
        trace (final (main_loop P fuel m)) = trace m ++ l
        /\ Forall fixed_poll l)
  /\ (forall fuel (w : W),
         Forall fixed_poll (trace (final (main P fuel (boot w))))).
Proof.
  split.
  - intros fuel m. apply keeps_main_loop.
  - intros fuel w.
    destruct (keeps_main P fuel (boot w)) as (l & T & F).
    rewrite T. exact F.
Qed.

End Process.

(** * The theorems at work in the scripted world *)

Lemma cycle_steps_in_order_witness :
  (exists m' l rc_depth depth rc_tick rc_account account stats,
      loop_body (sim_platform calm) (in_loop calm 1 []) = Returned tt m'
      /\ trace m' = l
      /\ calls l
         = [Ev_get_depth "BTC_USDT" rc_depth depth]
             ++ (if rc_depth =? 0 then [Ev_on_tick depth 1 rc_tick] else [])
             ++ [Ev_get_account rc_account account]
             ++ (if rc_account =? 0 then [Ev_on_account account] else [])
             ++ [Ev_get_stats stats;
                 Ev_broadcast (truncate 255 (status_line stats));
                 Ev_usleep 100000])
  /\ (forall fuel,
         exists l,
           trace (final (main_loop (sim_platform calm) fuel
                           (in_loop calm 1 []))) = l
           /\ cycles (calls l)).
Proof.
  apply (cycle_steps_in_order (sim_platform calm) (in_loop calm 1 [])).
  repeat split; discriminate.
Defined.

Lemma signal_stops_after_cycle_witness :
  let run := main_loop (sim_platform calm) 3
               (in_loop calm 1 [[]; []; []; [SIGINT]]) in
  returned run = true
  /\ cycles (calls (trace (final run)))
  /\ stops_after_signal (trace (final run)).
Proof.
  intros run.
  destruct (proj2 (proj2 (signal_stops_after_cycle (sim_platform calm)))
              3%nat (in_loop calm 1 [[]; []; []; [SIGINT]]))
    as (l & T & C & S & R).
  { repeat split; discriminate. }
  cbn [trace in_loop app] in T. fold run in T, R.
  rewrite T.
  split; [|split; assumption].
  apply R. rewrite <- T. vm_compute. reflexivity.
Defined.

Lemma depth_failure_is_passed_over_witness :
  exists m' rc_account account stats,
    loop_body (sim_platform (with_polls (-1) 0 0 calm))
      (in_loop (with_polls (-1) 0 0 calm) 1 []) = Returned tt m'
    /\ calls (trace m')
       = Ev_get_depth "BTC_USDT" (-1) one_ask
           :: [Ev_get_account rc_account account]
           ++ (if rc_account =? 0 then [Ev_on_account account] else [])
           ++ [Ev_get_stats stats; Ev_broadcast (status_text stats);
               Ev_usleep 100000].
Proof.
  destruct (depth_failure_is_passed_over
              (sim_platform (with_polls (-1) 0 0 calm))
              (in_loop (with_polls (-1) 0 0 calm) 1 []))
    as (m' & l & rc & d & rest & E & T & C & _ & H).
  { repeat split; discriminate. }
  cbn [trace in_loop app] in T. rewrite <- T in C.
  assert (E' := E). vm_compute in E'. injection E' as E'.
  rewrite <- E' in C. vm_compute in C. injection C as Hrc Hd Hrest.
  destruct H as (rc_a & a & st & H).
  { rewrite <- Hrc. discriminate. }
  exists m', rc_a, a, st.
  split; [exact E|].
  rewrite <- E'. rewrite <- H, <- Hrest. vm_compute. reflexivity.
Defined.

Lemma exit_codes_witness :
  let w := [[]; []; []; []; []; []; []; []; []; []; []; []; [SIGTERM]] in
  exists m',
    main (sim_platform calm) 2 (boot w) = Returned 0 m'
    /\ main (sim_platform calm) (2 + 3) (boot w) = Returned 0 m'.
Proof.
  intros w.
  destruct (exit_codes (sim_platform calm) 2 w) as [_ H].
  eexists.
  split; [vm_compute; reflexivity|].
  apply H. vm_compute. reflexivity.
Defined.

Lemma teardown_reverses_construction_witness :
  let P0 := sim_platform (with_startup true 0 true (-1) true 0 0 0 calm) in
  exists code m' cs,
    main P0 0 (boot []) = Returned code m'
    /\ built cs
    /\ lifecycle (trace m')
       = cs
           ++ (if made_webserver cs
               then [Ev_webserver_cleanup; Ev_destroy_webserver] else [])
           ++ (if made_strategy cs
               then [Ev_strategy_cleanup; Ev_destroy_strategy] else [])
           ++ (if made_exchange cs
               then [Ev_exchange_cleanup; Ev_destroy_exchange] else [])
    /\ lifecycle (trace m')
       = [Ev_create_exchange EXCHANGE_OKEX true;
          Ev_create_strategy "arbitrage" true;
          Ev_strategy_cleanup; Ev_destroy_strategy;
          Ev_exchange_cleanup; Ev_destroy_exchange].
Proof.
  intros P0. eexists. eexists.
  assert (E : main P0 0 (boot []) = Returned _ _)
    by (vm_compute; reflexivity).
  destruct (teardown_reverses_construction P0 0 [] _ _ E)
    as (cs & Hb & Hl & _).
  exists cs.
  split; [exact E|].
  split; [exact Hb|].
  split; [exact Hl|].
  vm_compute. reflexivity.
Defined.

Lemma status_broadcast_once_witness :
  exists m',
    loop_body (sim_platform calm) (in_loop calm 1 []) = Returned tt m'
    /\ filter is_get_stats (trace m') = [Ev_get_stats some_stats]
    /\ filter is_broadcast (trace m')
       = [Ev_broadcast (status_line some_stats)].
Proof.
  destruct (status_broadcast_once (sim_platform calm) (in_loop calm 1 []))
    as (m' & l & st & E & T & Hs & Hb & Hfit).
  { repeat split; discriminate. }
  cbn [trace in_loop app] in T. rewrite <- T in Hs, Hfit.
  assert (E' := E). vm_compute in E'. injection E' as E'.
  assert (Hst : st = some_stats).
  { rewrite <- E' in Hs. vm_compute in Hs. injection Hs as <-.
    vm_compute. reflexivity. }
  rewrite Hst in Hfit, Hs.
  exists m'.
  split; [exact E|].
  split; [exact Hs|].
  apply Hfit. vm_compute. lia.
Defined.

Lemma failed_polls_skip_callbacks_witness :
  let sc := with_polls (-1) 0 (-1) calm in
  exists m',
    loop_body (sim_platform sc) (in_loop sc 1 []) = Returned tt m'
    /\ filter is_on_tick (trace m') = []
    /\ filter is_on_account (trace m') = []
    /\ filter is_log (calls (trace m')) = [].
Proof.
  intros sc.
  destruct (failed_polls_skip_callbacks (sim_platform sc) (in_loop sc 1 []))
    as (m' & l & E & T & Ht & Ha & Hl & _).
  { repeat split; discriminate. }
  cbn [trace in_loop app] in T. rewrite <- T in Ht, Ha, Hl.
  assert (E' := E). vm_compute in E'. injection E' as E'.
  exists m'.
  split; [exact E|].
  split; [|split; [|exact Hl]].
  - apply (Ht "BTC_USDT" (-1) one_ask); [|discriminate].
    rewrite <- E'. vm_compute. left. reflexivity.
  - apply (Ha (-1) flat_account); [|discriminate].
    rewrite <- E'. vm_compute. right. left. reflexivity.
Defined.


Lemma stopped_loop_does_nothing_witness :
  exists m' l,
    main_loop (sim_platform calm) 5 (in_loop calm 0 [[SIGINT]])
    = Returned tt m'
    /\ trace m' = l
    /\ calls l = []
    /\ same_ptrs (in_loop calm 0 [[SIGINT]]) m'
    /\ world m' = [].
Proof.
  apply (stopped_loop_does_nothing (sim_platform calm) 5
           (in_loop calm 0 [[SIGINT]])).
  reflexivity.
Defined.

(** * Where the specification and the code part *)

(** C6, as stated, fails.  The strategy reports a total profit of [2^1000];
    the record would be 353 characters long, and the 256 bytes of [status]
    hold its first 255: the text broadcast is not the record of the
    statistics, and it is no record of that shape at all, since it does not
    end with the closing brace. *)
Lemma status_payload_cut :
  let sc := with_stats huge_stats calm in
  exists m' text,
    loop_body (sim_platform sc) (in_loop sc 1 []) = Returned tt m'
    /\ filter is_get_stats (trace m') = [Ev_get_stats huge_stats]
    /\ filter is_broadcast (trace m') = [Ev_broadcast text]
    /\ String.length text = 255%nat
    /\ String.length (status_line huge_stats) = 353%nat
    /\ double_valid (total_profit huge_stats) = true
    /\ text <> status_line huge_stats
    /\ (forall total daily trades, text <> status_shape total daily trades).
Proof.
  intros sc. eexists. eexists.
  split; [vm_compute; reflexivity|].
  split; [vm_compute; reflexivity|].
  split; [vm_compute; reflexivity|].
  split; [vm_compute; reflexivity|].
  split; [vm_compute; reflexivity|].
  split; [vm_compute; reflexivity|].
  split.
  - intros H. apply (f_equal String.length) in H.
    vm_compute in H. discriminate H.
  - intros total daily trades H. apply (f_equal last_char) in H.
    rewrite status_shape_ends in H. vm_compute in H. discriminate H.
Qed.

(** C7, as stated, fails.  Both polls of the cycle fail, no signal arrives,
    and nothing at all is logged. *)
Lemma failed_poll_not_logged :
  let sc := with_polls (-1) 0 (-1) calm in
  exists m',
    loop_body (sim_platform sc) (in_loop sc 1 []) = Returned tt m'
    /\ In (Ev_get_depth "BTC_USDT" (-1) one_ask) (trace m')
    /\ In (Ev_get_account (-1) flat_account) (trace m')
    /\ filter is_log (trace m') = [].
Proof.
  intros sc. eexists.
  split; [vm_compute; reflexivity|].
  split; [vm_compute; left; reflexivity|].
  split; [vm_compute; right; left; reflexivity|].
  vm_compute. reflexivity.
Qed.

(** * Runs of the whole program in the scripted world *)

(** Each of the eight startup steps, failing alone, ends the process with
    exit code 1, whatever the fuel. *)
Example each_startup_failure_exits_1 :
  Forall (fun sc => exit_code (main (sim_platform sc) 0 (boot [])) = Some 1)
    [with_startup false 0 true 0 true 0 0 0 calm;
     with_startup true (-1) true 0 true 0 0 0 calm;
     with_startup true 0 false 0 true 0 0 0 calm;
     with_startup true 0 true (-1) true 0 0 0 calm;
     with_startup true 0 true 0 false 0 0 0 calm;
     with_startup true 0 true 0 true (-1) 0 0 calm;
     with_startup true 0 true 0 true 0 (-1) 0 calm;
     with_startup true 0 true 0 true 0 0 (-1) calm].
Proof.
  repeat constructor.
Qed.

(** A signal that arrives while the strategy is being created: startup
    completes, the loop is entered with the flag clear, no cycle runs, and
    the process exits with code 0. *)
Example signal_during_startup :
  let run := main (sim_platform calm) 0 (boot [[]; []; [SIGINT]]) in
  exit_code run = Some 0
  /\ filter is_get_depth (trace (final run)) = []
  /\ filter is_get_stats (trace (final run)) = []
  /\ filter is_broadcast (trace (final run)) = []
  /\ lifecycle (trace (final run))
     = constructions true true true ++ teardown true true true.
Proof.
  vm_compute. repeat split.
Qed.

(** Without a signal the loop is still running when the fuel is spent. *)
Example no_signal_no_exit :
  exit_code (main (sim_platform calm) 3 (boot [])) = None.
Proof.
  vm_compute. reflexivity.
Qed.

(** * More of startup and teardown *)

Ltac init_leaf Acc Ge Gs Gw a :=
  eexists; split; [exact Acc|];
  exists a;
  unfold init_calls, init_result, init_ok, webserver_exists,
    strategy_exists, exchange_exists, log_line;
  rewrite Ge, Gs, Gw;
  log_simpl; cbn; use_codes; cbn;
  repeat split.

Section Startup.

Context {W : Type} (P : platform W).

Lemma init_framework_calls (m : machine W) :
  g_exchange m = None -> g_strategy m = None -> g_webserver m = None ->
  wp (init_framework P) m
     (fun rc m' => exists l, advances m m' l /\ init_post rc m' l)
     never.
Proof.
  intros Ge Gs Gw.
  assert (Acc := advances_refl m).
  unfold init_framework.
  apply wp_bind. apply wp_call; [reflexivity|].
  intros sg1 ex m1 P1 A1. carry P1 Ge Gs Gw. accumulate Acc A1.
  apply wp_bind. apply wp_set_g_exchange.
  intros m2 Ge' Gs' Gw' A2. rewrite Gs in Gs'. rewrite Gw in Gw'.
  clear Ge Gs Gw. accumulate Acc A2.
  apply wp_bind. apply wp_get. rewrite Ge'.
  apply wp_bind.
  destruct ex as [ex|].
  2: { apply wp_ret. apply wp_bind. apply wp_Logf; [reflexivity|].
       intros sg m3 P3 A3. carry P3 Ge' Gs' Gw'. accumulate Acc A3.
       apply wp_ret.
       init_leaf Acc Ge' Gs' Gw' (Build_answers false 0 false 0 false 0). }
  apply wp_bind. apply wp_call; [reflexivity|].
  intros sg2 rc1 m3 P3 A3. carry P3 Ge' Gs' Gw'. accumulate Acc A3.
  apply wp_ret.
  destruct (rc1 =? 0) eqn:E1; cbn [negb].
  2: { apply wp_bind. apply wp_Logf; [reflexivity|].
       intros sg m4 P4 A4. carry P4 Ge' Gs' Gw'. accumulate Acc A4.
       apply wp_ret.
       init_leaf Acc Ge' Gs' Gw' (Build_answers true rc1 false 0 false 0). }
  apply wp_bind. apply wp_call; [reflexivity|].
  intros sg3 st m4 P4 A4. carry P4 Ge' Gs' Gw'. accumulate Acc A4.
  apply wp_bind. apply wp_set_g_strategy.
  intros m5 Ge Gs Gw A5. rewrite Ge' in Ge. rewrite Gw' in Gw.
  clear Ge' Gs' Gw'. accumulate Acc A5.
  apply wp_bind. apply wp_get. rewrite Gs.
  apply wp_bind.
  destruct st as [st|].
  2: { apply wp_ret. apply wp_bind. apply wp_Logf; [reflexivity|].
       intros sg m6 P6 A6. carry P6 Ge Gs Gw. accumulate Acc A6.
       apply wp_ret.
       init_leaf Acc Ge Gs Gw (Build_answers true rc1 false 0 false 0). }
  apply wp_bind. apply wp_call; [reflexivity|].
  intros sg4 rc2 m6 P6 A6. carry P6 Ge Gs Gw. accumulate Acc A6.
  apply wp_ret.
  destruct (rc2 =? 0) eqn:E2; cbn [negb].
  2: { apply wp_bind. apply wp_Logf; [reflexivity|].
       intros sg m7 P7 A7. carry P7 Ge Gs Gw. accumulate Acc A7.
       apply wp_ret.
       init_leaf Acc Ge Gs Gw (Build_answers true rc1 true rc2 false 0). }
  apply wp_bind. apply wp_call; [reflexivity|].
  intros sg5 ws m7 P7 A7. carry P7 Ge Gs Gw. accumulate Acc A7.
  apply wp_bind. apply wp_set_g_webserver.
  intros m8 Ge' Gs' Gw' A8. rewrite Ge in Ge'. rewrite Gs in Gs'.
  clear Ge Gs Gw. accumulate Acc A8.
  apply wp_bind. apply wp_get. rewrite Gw'.
  apply wp_bind.
  destruct ws as [ws|].
  2: { apply wp_ret. apply wp_bind. apply wp_Logf; [reflexivity|].
       intros sg m9 P9 A9. carry P9 Ge' Gs' Gw'. accumulate Acc A9.
       apply wp_ret.
       init_leaf Acc Ge' Gs' Gw' (Build_answers true rc1 true rc2 false 0). }
  apply wp_bind. apply wp_call; [reflexivity|].
  intros sg6 rc3 m9 P9 A9. carry P9 Ge' Gs' Gw'. accumulate Acc A9.
  apply wp_ret.
  destruct (rc3 =? 0) eqn:E3; cbn [negb].
  2: { apply wp_bind. apply wp_Logf; [reflexivity|].
       intros sg m10 P10 A10. carry P10 Ge' Gs' Gw'. accumulate Acc A10.
       apply wp_ret.
       init_leaf Acc Ge' Gs' Gw' (Build_answers true rc1 true rc2 true rc3). }
  apply wp_bind. eapply wp_deref; [exact Gw'|].
  apply wp_bind. eapply wp_deref; [exact Gs'|].
  apply wp_bind. apply wp_call_; [reflexivity|].
  intros sg7 m10 P10 A10. carry P10 Ge' Gs' Gw'. accumulate Acc A10.
  apply wp_ret.
  init_leaf Acc Ge' Gs' Gw' (Build_answers true rc1 true rc2 true rc3).
Qed.

End Startup.

Section Whole_run.

Context {W : Type} (P : platform W).

Lemma main_leaf (w : W) (m3 mb mc m' : machine W)
    (L mid ll lc : list event) (a : answers) (rc_web rc_strategy code : Z) :
  advances (boot w) m3 L ->
  is_some (g_exchange m3) = exchange_exists a ->
  is_some (g_strategy m3) = strategy_exists a ->
  is_some (g_webserver m3) = webserver_exists a ->
  same_ptrs m3 mb ->
  advances m3 mb mid ->
  calls (L ++ mid) = main_head a rc_web rc_strategy ->
  same_ptrs mb mc ->
  advances mb mc ll ->
  cycles (calls ll) ->
  (launched a rc_web rc_strategy = false -> ll = []) ->
  (g_running mb = 0 -> calls ll = []) ->
  same_ptrs mc m' ->
  advances mc m' lc ->
  calls lc = teardown (is_some (g_webserver mc)) (is_some (g_strategy mc))
               (is_some (g_exchange mc)) ->
  code = (if launched a rc_web rc_strategy then 0 else 1) ->
  main_post code m'.
Proof.
  intros A3 He Hs Hw Pb Ab Hhead Pc Ac Hcyc Hnone Hstop P' A' Hlc Hcode.
  assert (Ab' := advances_trans _ _ _ _ _ A3 Ab).
  assert (Ac' := advances_trans _ _ _ _ _ Ab' Ac).
  assert (Aall := advances_trans _ _ _ _ _ Ac' A').
  apply running_of_boot in Aall. destruct Aall as (T & _).
  apply running_of_boot in Ab'. destruct Ab' as (_ & Rb).
  destruct Pb as (Q1 & Q2 & Q3). destruct Pc as (Q1' & Q2' & Q3').
  rewrite Q1', Q2', Q3', Q1, Q2, Q3, Hw, Hs, He in Hlc.
  exists a, rc_web, rc_strategy, (L ++ mid), ll, lc.
  split; [rewrite T, <- app_assoc; reflexivity|].
  split; [exact Hhead|].
  split; [exact Hcyc|].
  split; [exact Hlc|].
  split; [exact Hnone|].
  split; [|exact Hcode].
  intros Hsig. apply Hstop. rewrite Rb, Hsig. reflexivity.
Qed.

Lemma main_calls (fuel : nat) (w : W) :
  wp (main P fuel) (boot w) main_post main_running_post.
Proof.
  assert (Acc := advances_refl (boot w)).
  unfold main, signal.
  apply wp_bind. apply wp_emit; [reflexivity|].
  intros m1 P1 A1. accumulate Acc A1.
  apply wp_bind. apply wp_emit; [reflexivity|].
  intros m2 P2 A2. accumulate Acc A2.
  accumulate_ptrs P1 P2.
  apply wp_bind.
  eapply wp_mono;
    [apply (init_framework_calls P m2);
     rewrite (proj1 P1) || rewrite (proj1 (proj2 P1))
     || rewrite (proj2 (proj2 P1)); reflexivity
    | | intros ? []].
  intros rc m3 (l & A3 & a & Hcalls & Hrc & He & Hs & Hw).
  accumulate Acc A3.
  assert (Pmid := same_ptrs_refl m3).
  assert (Mid := advances_refl m3).
  unfold init_result in Hrc.
  destruct (init_ok a) eqn:Eok; subst rc; cbn [Z.eqb negb].
  2: { apply wp_bind. apply (wp_Logf P); [reflexivity|].
       intros sg m4 P4 A4. accumulate Mid A4. accumulate_ptrs Pmid P4.
       apply wp_bind. eapply wp_mono; [apply (cleanup_run P)| |intros ? []].
       intros _ m5 (P5 & lc & A5 & C5).
       apply wp_ret.
       eapply (main_leaf w m3 m4 m4 m5 _ _ [] lc a 0 0);
         try eassumption;
         try apply same_ptrs_refl; try apply advances_refl;
         try (constructor; fail); try reflexivity.
       - log_simpl. rewrite Hcalls. unfold main_head, log_line.
         rewrite Eok. reflexivity.
       - unfold launched. rewrite Eok. reflexivity. }
  assert (Hall : exchange_exists a = true /\ strategy_exists a = true
                 /\ webserver_exists a = true).
  { unfold init_ok, webserver_exists, strategy_exists, exchange_exists in *.
    destruct (a_exchange a), (a_exchange_init a =? 0), (a_strategy a),
      (a_strategy_init a =? 0), (a_webserver a); try discriminate Eok.
    repeat split. }
  destruct Hall as (Xe & Xs & Xw).
  destruct (g_exchange m3) as [ex|] eqn:Ge;
    [|rewrite Xe in He; discriminate He].
  destruct (g_strategy m3) as [st|] eqn:Gs;
    [|rewrite Xs in Hs; discriminate Hs].
  destruct (g_webserver m3) as [ws|] eqn:Gw;
    [|rewrite Xw in Hw; discriminate Hw].
  rewrite <- Ge in He. rewrite <- Gs in Hs. rewrite <- Gw in Hw.
  apply wp_bind. eapply wp_deref; [exact Gw|].
  apply wp_bind. apply wp_call; [reflexivity|].
  intros sg1 rc1 m4 P4 A4.
  accumulate Mid A4. accumulate_ptrs Pmid P4.
  destruct (rc1 =? 0) eqn:E1; cbn [negb].
  2: { apply wp_bind. apply (wp_Logf P); [reflexivity|].
       intros sg m5 P5 A5. accumulate Mid A5. accumulate_ptrs Pmid P5.
       apply wp_bind. eapply wp_mono; [apply (cleanup_run P)| |intros ? []].
       intros _ m6 (P6 & lc & A6 & C6).
       apply wp_ret.
       eapply (main_leaf w m3 m5 m5 m6 _ _ [] lc a rc1 0);
         try eassumption;
         try apply same_ptrs_refl; try apply advances_refl;
         try (constructor; fail); try reflexivity.
       - log_simpl. rewrite Hcalls. unfold main_head, log_line.
         rewrite Eok, E1. reflexivity.
       - unfold launched. rewrite Eok, E1. reflexivity. }
  apply wp_bind. eapply wp_deref; [rewrite (proj1 Pmid); exact Gs|].
  apply wp_bind. apply wp_call; [reflexivity|].
  intros sg2 rc2 m5 P5 A5.
  accumulate Mid A5. accumulate_ptrs Pmid P5.
  destruct (rc2 =? 0) eqn:E2; cbn [negb].
  2: { apply wp_bind. apply (wp_Logf P); [reflexivity|].
       intros sg m6 P6 A6. accumulate Mid A6. accumulate_ptrs Pmid P6.
       apply wp_bind. eapply wp_mono; [apply (cleanup_run P)| |intros ? []].
       intros _ m7 (P7 & lc & A7 & C7).
       apply wp_ret.
       eapply (main_leaf w m3 m6 m6 m7 _ _ [] lc a rc1 rc2);
         try eassumption;
         try apply same_ptrs_refl; try apply advances_refl;
         try (constructor; fail); try reflexivity.
       - log_simpl. rewrite Hcalls. unfold main_head, log_line.
         rewrite Eok, E1, E2. reflexivity.
       - unfold launched. rewrite Eok, E1, E2. reflexivity. }
  apply wp_bind. apply (wp_Logf P); [reflexivity|].
  intros sg3 m6 P6 A6.
  accumulate Mid A6. accumulate_ptrs Pmid P6.
  assert (Hhead : calls (((([] ++ [Ev_signal SIGINT])
                             ++ [Ev_signal SIGTERM]) ++ l)
                           ++ (([] ++ signal_logs sg1
                                   ++ [Ev_webserver_start rc1])
                                 ++ signal_logs sg2
                                 ++ [Ev_strategy_start rc2])
                           ++ signal_logs sg3
                           ++ [Ev_Logf
                                 ("Quantitative trading framework started"
                                    ++ newline) []])
                  = main_head a rc1 rc2).
  { log_simpl. rewrite Hcalls. unfold main_head, log_line.
    rewrite Eok, E1, E2. reflexivity. }
  assert (Hm6 : wired m6).
  { apply (wired_same_ptrs m3); [exact Pmid|].
    unfold wired. rewrite Ge, Gs, Gw. repeat split; discriminate. }
  apply wp_bind.
  eapply wp_mono; [exact (main_loop_run P fuel m6 Hm6)| |].
  - intros _ m7 (P7 & ll & A7 & R7 & C7 & _ & Z7).
    apply wp_bind. eapply wp_mono; [apply (cleanup_run P)| |intros ? []].
    intros _ m8 (P8 & lc & A8 & C8).
    apply wp_ret.
    eapply (main_leaf w m3 m6 m7 m8 _ _ ll lc a rc1 rc2);
      try eassumption.
    + unfold launched. rewrite Eok, E1, E2. discriminate.
    + unfold launched. rewrite Eok, E1, E2. reflexivity.
  - intros m7 (P7 & ll & A7 & R7 & C7 & Q7).
    assert (A06 := advances_trans _ _ _ _ _ Acc Mid).
    assert (All := advances_trans _ _ _ _ _ A06 A7).
    apply running_of_boot in All. destruct All as (T & _).
    exists a, rc1, rc2. eexists. exists ll.
    split; [exact T|].
    split; [exact Hhead|].
    split; [exact C7|].
    unfold launched. rewrite Eok, E1, E2. reflexivity.
Qed.

End Whole_run.

(** * Facts about whole logs *)

Lemma cycle_has_only_cycle_calls (c : list event) :
  is_cycle c -> forallb is_cycle_call c = true.
Proof.
  intros (rc_d & d & rc_t & rc_a & a & st & ->).
  unfold cycle_calls. destruct (rc_d =? 0), (rc_a =? 0); reflexivity.
Qed.

Lemma cycles_have_only_cycle_calls (l : list event) :
  cycles l -> forallb is_cycle_call l = true.
Proof.
  induction 1 as [|c rest Hc _ IH]; [reflexivity|].
  rewrite forallb_app, (cycle_has_only_cycle_calls c Hc), IH. reflexivity.
Qed.

Lemma none_of (p q : event -> bool) (l : list event) :
  (forall e, q e = true -> p e = false) ->
  forallb q l = true -> filter p l = [].
Proof.
  intros Hpq.
  induction l as [|e l IH]; [reflexivity|].
  cbn [forallb filter]. intros H.
  apply andb_true_iff in H. destruct H as (He & Hl).
  rewrite (Hpq e He). apply IH. exact Hl.
Qed.

Lemma teardown_all_teardown (a b c : bool) :
  forallb is_teardown (teardown a b c) = true.
Proof. destruct a, b, c; reflexivity. Qed.

Lemma main_head_startup_only (a : answers) (rc_web rc_strategy : Z) :
  forallb (fun e => negb (is_cycle_call e) && negb (is_teardown e))
    (main_head a rc_web rc_strategy) = true.
Proof.
  destruct a as [e rc1 s rc2 w rc3].
  unfold main_head, init_calls, init_ok, webserver_exists, strategy_exists,
    exchange_exists.
  cbn [a_exchange a_exchange_init a_strategy a_strategy_init a_webserver
         a_webserver_init].
  destruct e, (rc1 =? 0), s, (rc2 =? 0), w, (rc3 =? 0), (rc_web =? 0),
    (rc_strategy =? 0); reflexivity.
Qed.

Lemma started_means_launched (a : answers) (rc_web rc_strategy : Z) :
  In (log_line "Quantitative trading framework started")
    (main_head a rc_web rc_strategy) ->
  launched a rc_web rc_strategy = true.
Proof.
  destruct a as [e rc1 s rc2 w rc3].
  unfold main_head, init_calls, launched, init_ok, webserver_exists,
    strategy_exists, exchange_exists.
  cbn [a_exchange a_exchange_init a_strategy a_strategy_init a_webserver
         a_webserver_init].
  destruct e, (rc1 =? 0), s, (rc2 =? 0), w, (rc3 =? 0), (rc_web =? 0),
    (rc_strategy =? 0); cbn; intros H; try reflexivity;
    repeat (destruct H as [H|H]; try discriminate H; try contradiction H).
Qed.

Lemma not_in_when_all (q : event -> bool) (e : event) (l : list event) :
  q e = false -> forallb q l = true -> ~ In e l.
Proof.
  intros He Hl Hin.
  rewrite forallb_forall in Hl. rewrite (Hl e Hin) in He. discriminate He.
Qed.

Lemma in_calls (e : event) (l : list event) :
  is_signal_log e = false -> In e l -> In e (calls l).
Proof.
  intros He Hin. apply filter_In. split; [exact Hin|].
  rewrite He. reflexivity.
Qed.

Lemma teardown_comes_last_app (l1 l2 : list event) :
  forallb (fun e => negb (is_teardown e)) l1 = true ->
  forallb is_teardown l2 = true ->
  teardown_comes_last (l1 ++ l2) = true.
Proof.
  intros H1 H2.
  induction l1 as [|e l1 IH]; cbn [app].
  - destruct l2 as [|e2 l2]; [reflexivity|].
    cbn [teardown_comes_last forallb] in *.
    apply andb_true_iff in H2. destruct H2 as (-> & H2). exact H2.
  - cbn [forallb] in H1. apply andb_true_iff in H1.
    destruct H1 as (He & H1).
    cbn [teardown_comes_last].
    destruct (is_teardown e); [discriminate He|].
    apply IH. exact H1.
Qed.

Lemma forallb_weaken (p q : event -> bool) (l : list event) :
  (forall e, p e = true -> q e = true) ->
  forallb p l = true -> forallb q l = true.
Proof.
  intros Hpq. rewrite !forallb_forall. intros H e Hin.
  apply Hpq, H, Hin.
Qed.

(** * Startup, loop and teardown as a whole *)

Section Whole_program.

Context {W : Type} (P : platform W).

(** X1.  [init_framework], entered with the three pointers null, creates
    and initialises the exchange, the strategy and the web server in that
    order and stops at the first step that fails: it logs the line of that
    component, calls nothing further and returns -1.  It returns 0 exactly
    if all six steps succeeded, having then registered the strategy with
    the web server.  A pointer is not null afterwards exactly if the
    creation of its component was reached and returned a pointer. *)
Theorem init_framework_stops_at_first_failure (m : machine W) :
  g_exchange m = None -> g_strategy m = None -> g_webserver m = None ->
  exists rc m' l a,
    init_framework P m = Returned rc m'
    /\ trace m' = trace m ++ l
    /\ calls l = init_calls a
    /\ rc = (if init_ok a then 0 else -1)
    /\ is_some (g_exchange m') = exchange_exists a
    /\ is_some (g_strategy m') = strategy_exists a
    /\ is_some (g_webserver m') = webserver_exists a.
Proof.
  intros Ge Gs Gw.
  assert (H := init_framework_calls P m Ge Gs Gw). unfold wp in H.
  destruct (init_framework P m) as [rc m'| |]; try contradiction.
  destruct H as (l & (T & _) & a & Hc & Hrc & He & Hs & Hw).
  exists rc, m', l, a.
  repeat split; assumption.
Qed.

(** X2.  The calls of a whole run of [main], the lines of the signal
    handler apart.  When [main] returns they are the startup up to its
    first failing step with the lines logged there, or else up to the line
    that the framework has started followed by whole polling cycles, and
    then the teardown of the components that exist; the exit code is 0 if
    the loop was entered and 1 if not.  When the fuel runs out, startup
    went through and the calls after it are whole cycles. *)
Theorem main_call_sequence (fuel : nat) (w : W) :
  match main P fuel (boot w) with
  | Returned code m' =>
      exists a rc_web rc_strategy loop,
        calls (trace m')
        = main_head a rc_web rc_strategy ++ loop ++ main_teardown a
        /\ cycles loop
        /\ (launched a rc_web rc_strategy = false -> loop = [])
        /\ code = (if launched a rc_web rc_strategy then 0 else 1)
  | Unfinished m' =>
      exists a rc_web rc_strategy loop,
        calls (trace m') = main_head a rc_web rc_strategy ++ loop
        /\ cycles loop
        /\ launched a rc_web rc_strategy = true
  | Crashed _ => False
  end.
Proof.
  assert (H := main_calls P fuel w). unfold wp in H.
  destruct (main P fuel (boot w)) as [code m'|m'|m'].
  - destruct H as (a & rw & rs & ls & ll & le & T & Hs & Hc & He & Hn
                   & _ & Hcode).
    exists a, rw, rs, (calls ll).
    split; [rewrite T, !calls_app, Hs, He; reflexivity|].
    split; [exact Hc|].
    split; [|exact Hcode].
    intros Hl. rewrite (Hn Hl). reflexivity.
  - exact H.
  - destruct H as (a & rw & rs & ls & ll & T & Hs & Hc & Hl).
    exists a, rw, rs, (calls ll).
    split; [rewrite T, calls_app, Hs; reflexivity|].
    split; assumption.
Qed.

(** X3.  A run of [main] that exits with code 1 has made no call of the
    polling cycle: no poll of the exchange, no callback of the strategy, no
    read of the statistics, no broadcast and no sleep. *)
Theorem failed_startup_never_polls (fuel : nat) (w : W) (m' : machine W) :
  main P fuel (boot w) = Returned 1 m' ->
  filter is_cycle_call (trace m') = [].
Proof.
  intros E.
  assert (H := main_calls P fuel w). unfold wp in H. rewrite E in H.
  destruct H as (a & rw & rs & ls & ll & le & T & Hs & Hc & He & Hn
                 & _ & Hcode).
  destruct (launched a rw rs); [discriminate Hcode|].
  rewrite (Hn eq_refl) in T. cbn [app] in T.
  rewrite <- (filter_calls is_cycle_call)
    by (apply not_signal_log; reflexivity).
  rewrite T, calls_app, Hs, He, filter_app.
  rewrite (none_of is_cycle_call
             (fun e => negb (is_cycle_call e) && negb (is_teardown e))
             (main_head a rw rs)).
  - rewrite (none_of is_cycle_call is_teardown (main_teardown a));
      [reflexivity| |].
    + intros e. destruct e; try discriminate; reflexivity.
    + apply teardown_all_teardown.
  - intros e He'. apply andb_true_iff in He'. destruct He' as (He' & _).
    destruct (is_cycle_call e); [discriminate He' | reflexivity].
  - apply main_head_startup_only.
Qed.

(** X4.  In a run of [main] that returns, nothing is called on a component
    after the teardown has begun: from the first call of [cleanup] on, the
    calls of [main.c] are calls of [cleanup] only. *)
Theorem nothing_used_after_teardown (fuel : nat) (w : W) (code : Z)
    (m' : machine W) :
  main P fuel (boot w) = Returned code m' ->
  teardown_comes_last (calls (trace m')) = true.
Proof.
  intros E.
  assert (H := main_calls P fuel w). unfold wp in H. rewrite E in H.
  destruct H as (a & rw & rs & ls & ll & le & T & Hs & Hc & He & _).
  rewrite T, !calls_app, Hs, He, app_assoc.
  apply teardown_comes_last_app; [|apply teardown_all_teardown].
  rewrite forallb_app. apply andb_true_iff. split.
  - eapply forallb_weaken; [|apply main_head_startup_only].
    intros e He'. apply andb_true_iff in He'. apply He'.
  - eapply forallb_weaken; [|apply cycles_have_only_cycle_calls, Hc].
    intros e. destruct e; try discriminate; reflexivity.
Qed.

(** X5.  [cleanup] is safe with any of the three pointers null and calls
    [cleanup] and [destroy] for the others, web server first.  It leaves
    the pointers as they are, so that a second [cleanup] makes the same
    calls on the same components once more. *)
Theorem cleanup_keeps_pointers (m : machine W) :
  exists m1 m2 l1 l2,
    cleanup P m = Returned tt m1
    /\ cleanup P m1 = Returned tt m2
    /\ same_ptrs m m1
    /\ trace m1 = trace m ++ l1
    /\ trace m2 = trace m1 ++ l2
    /\ calls l1 = teardown (is_some (g_webserver m)) (is_some (g_strategy m))
                    (is_some (g_exchange m))
    /\ calls l2 = calls l1.
Proof.
  assert (H1 := cleanup_run P m). unfold wp in H1.
  destruct (cleanup P m) as [[] m1| |] eqn:E1; try contradiction.
  destruct H1 as (P1 & l1 & (T1 & _) & C1).
  assert (H2 := cleanup_run P m1). unfold wp in H2.
  destruct (cleanup P m1) as [[] m2| |] eqn:E2; try contradiction.
  destruct H2 as (P2 & l2 & (T2 & _) & C2).
  exists m1, m2, l1, l2.
  split; [reflexivity|].
  split; [exact E2|].
  split; [exact P1|].
  split; [exact T1|].
  split; [exact T2|].
  split; [exact C1|].
  rewrite C2, C1.
  destruct P1 as (-> & -> & ->). reflexivity.
Qed.

(** X6.  A signal handled before the line that the framework has started
    is logged: if the run returns, it has made no call of the polling cycle
    at all, and it exits with code 0. *)
Theorem signal_before_start_skips_loop (fuel : nat) (w : W) (code : Z)
    (m' : machine W) (before after : list event) :
  main P fuel (boot w) = Returned code m' ->
  trace m'
  = before ++ log_line "Quantitative trading framework started" :: after ->
  existsb is_signal_log before = true ->
  code = 0 /\ filter is_cycle_call (trace m') = [].
Proof.
  intros E Hsplit Hsig.
  assert (H := main_calls P fuel w). unfold wp in H. rewrite E in H.
  destruct H as (a & rw & rs & ls & ll & le & T & Hs & Hc & He & Hn
                 & Hz & Hcode).
  set (started := log_line "Quantitative trading framework started") in *.
  assert (Hnl : ~ In started (calls ll)).
  { apply (not_in_when_all is_cycle_call); [reflexivity|].
    apply cycles_have_only_cycle_calls, Hc. }
  assert (Hne : ~ In started (calls le)).
  { rewrite He. apply (not_in_when_all is_teardown); [reflexivity|].
    apply teardown_all_teardown. }
  rewrite T in Hsplit. apply app_eq_app in Hsplit.
  destruct Hsplit as (x & [(E1 & E2) | (E1 & E2)]).
  2: { (* the line would lie in the loop or in the teardown *)
       exfalso.
       assert (Hin : In started (calls (ll ++ le))).
       { apply in_calls; [reflexivity|]. rewrite E2.
         apply in_or_app. right. left. reflexivity. }
       rewrite calls_app in Hin. apply in_app_or in Hin.
       destruct Hin as [Hin|Hin]; [exact (Hnl Hin) | exact (Hne Hin)]. }
  destruct x as [|e x].
  { (* the line would be the first of the loop or of the teardown *)
    exfalso. cbn [app] in E2.
    assert (Hin : In started (calls (ll ++ le))).
    { apply in_calls; [reflexivity|]. rewrite <- E2. left. reflexivity. }
    rewrite calls_app in Hin. apply in_app_or in Hin.
    destruct Hin as [Hin|Hin]; [exact (Hnl Hin) | exact (Hne Hin)]. }
  cbn [app] in E2. injection E2 as <- _.
  assert (Hls : existsb is_signal_log ls = true).
  { rewrite E1, existsb_app, Hsig. reflexivity. }
  assert (Hl : launched a rw rs = true).
  { apply started_means_launched. rewrite <- Hs.
    apply in_calls; [reflexivity|].
    rewrite E1. apply in_or_app. right. left. reflexivity. }
  rewrite Hl in Hcode.
  split; [exact Hcode|].
  rewrite <- (filter_calls is_cycle_call)
    by (apply not_signal_log; reflexivity).
  rewrite T, !calls_app, Hs, (Hz Hls), He, !filter_app.
  rewrite (none_of is_cycle_call
             (fun e => negb (is_cycle_call e) && negb (is_teardown e))
             (main_head a rw rs)).
  - rewrite (none_of is_cycle_call is_teardown (main_teardown a));
      [reflexivity| |].
    + intros e. destruct e; try discriminate; reflexivity.
    + apply teardown_all_teardown.
  - intros e He'. apply andb_true_iff in He'. destruct He' as (He' & _).
    destruct (is_cycle_call e); [discriminate He' | reflexivity].
  - apply main_head_startup_only.
Qed.

End Whole_program.

(** * More of the loop *)

Lemma count_app (p : event -> bool) (l1 l2 : list event) :
  count p (l1 ++ l2) = (count p l1 + count p l2)%nat.
Proof.
  unfold count. rewrite filter_app. apply length_app.
Qed.

Lemma count_calls (p : event -> bool) (l : list event) :
  (forall fmt args, p (Ev_Logf fmt args) = false) ->
  count p (calls l) = count p l.
Proof.
  intros Hp. unfold count.
  rewrite filter_calls by (apply not_signal_log; exact Hp). reflexivity.
Qed.

Lemma cycle_counts (c : list event) :
  is_cycle c ->
  count is_usleep c = 1%nat
  /\ count is_get_depth c = 1%nat
  /\ count is_get_account c = 1%nat
  /\ count is_get_stats c = 1%nat
  /\ count is_broadcast c = 1%nat
  /\ count is_on_tick c = count depth_polled c
  /\ count is_on_account c = count account_polled c.
Proof.
  intros (rc_d & d & rc_t & rc_a & a & st & ->).
  unfold cycle_calls, count.
  destruct (rc_d =? 0) eqn:Ed, (rc_a =? 0) eqn:Ea;
    cbn [app filter is_usleep is_get_depth is_get_account is_get_stats
           is_broadcast is_on_tick is_on_account depth_polled
           account_polled];
    rewrite ?Ed, ?Ea; repeat split.
Qed.

Lemma cycles_counts (l : list event) :
  cycles l ->
  count is_get_depth l = count is_usleep l
  /\ count is_get_account l = count is_usleep l
  /\ count is_get_stats l = count is_usleep l
  /\ count is_broadcast l = count is_usleep l
  /\ count is_on_tick l = count depth_polled l
  /\ count is_on_account l = count account_polled l.
Proof.
  induction 1 as [|c rest Hc _ (I1 & I2 & I3 & I4 & I5 & I6)].
  - repeat split.
  - destruct (cycle_counts c Hc) as (C0 & C1 & C2 & C3 & C4 & C5 & C6).
    rewrite !count_app, C0, C1, C2, C3, C4, C5, C6, I1, I2, I3, I4, I5, I6.
    repeat split.
Qed.

Lemma cycle_handed_on (prev : option event) (c rest : list event) :
  is_cycle c ->
  (forall p, handed_on p rest) ->
  handed_on prev (c ++ rest).
Proof.
  intros (rc_d & d & rc_t & rc_a & a & st & ->) Hrest.
  unfold cycle_calls.
  destruct (rc_d =? 0) eqn:Ed, (rc_a =? 0) eqn:Ea;
    try (apply Z.eqb_eq in Ed; subst rc_d);
    try (apply Z.eqb_eq in Ea; subst rc_a);
    cbn [app handed_on];
    repeat split; try apply Hrest;
    exists st; split; reflexivity.
Qed.

Lemma cycles_handed_on (l : list event) :
  cycles l -> forall prev, handed_on prev l.
Proof.
  induction 1 as [|c rest Hc _ IH]; intros prev.
  - exact I.
  - apply cycle_handed_on; assumption.
Qed.

Section More_loop.

Context {W : Type} (P : platform W).

(** X7.  Over any run of the main loop, the depth is polled, the account is
    polled, the statistics are read, the status is broadcast and the loop
    sleeps the same number of times; [on_tick] is called once for every
    depth poll that returned 0 and [on_account] once for every account poll
    that returned 0. *)
Theorem calls_keep_pace (fuel : nat) (m : machine W) :
  wired m ->
  exists l,
    trace (final (main_loop P fuel m)) = trace m ++ l
    /\ count is_get_depth l = count is_usleep l
    /\ count is_get_account l = count is_usleep l
    /\ count is_get_stats l = count is_usleep l
    /\ count is_broadcast l = count is_usleep l
    /\ count is_on_tick l = count depth_polled l
    /\ count is_on_account l = count account_polled l.
Proof.
  intros Hm.
  destruct (main_loop_outcome P fuel m Hm) as (l & (T & _) & _ & C & _).
  exists l. split; [exact T|].
  apply cycles_counts in C.
  rewrite !count_calls in C by reflexivity.
  exact C.
Qed.

(** X8.  Over any run of the main loop every callback comes right after
    the call that feeds it.  [on_tick] is called directly after a depth
    poll that returned 0 and is handed what that poll left in [depth];
    [on_account] is called directly after an account poll that returned 0
    and is handed what that poll left in [account]; the text of a broadcast
    is the first 255 characters of the status record of the statistics
    read directly before it.  After a poll that failed the callback is
    not called, so that it does not see what is in the buffer then. *)
Theorem callbacks_get_fresh_data (fuel : nat) (m : machine W) :
  wired m ->
  exists l,
    trace (final (main_loop P fuel m)) = trace m ++ l
    /\ handed_on None (calls l).
Proof.
  intros Hm.
  destruct (main_loop_outcome P fuel m Hm) as (l & (T & _) & _ & C & _).
  exists l. split; [exact T|].
  apply cycles_handed_on. exact C.
Qed.

End More_loop.

(** * The stop flag and the pointers *)

Lemma filter_signal_logs (p : event -> bool) (sigs : list signum) :
  (forall fmt args, p (Ev_Logf fmt args) = false) ->
  filter p (signal_logs sigs) = [].
Proof.
  intros Hp.
  induction sigs as [|s rest IH]; [reflexivity|].
  cbn [signal_logs map filter]. rewrite Hp. exact IH.
Qed.

Section Flag.

Context {W : Type} (P : platform W).

Lemma stop_same {A : Type} (c : M W A) :
  (forall m, g_running (final (c m)) = g_running m) -> keeps_stop c.
Proof.
  intros H m. left. apply H.
Qed.

Lemma stop_bind {A B : Type} (c : M W A) (k : A -> M W B) :
  keeps_stop c -> (forall a, keeps_stop (k a)) -> keeps_stop (bind c k).
Proof.
  intros Hc Hk m.
  specialize (Hc m). unfold bind.
  destruct (c m) as [a m'|m'|m']; cbn [final] in *; try exact Hc.
  destruct (Hk a m') as [H|H]; [|right; exact H].
  rewrite H. exact Hc.
Qed.

Lemma stop_handle_signal (sig : Z) : keeps_stop (W:=W) (handle_signal sig).
Proof.
  intros m. right. reflexivity.
Qed.

Lemma stop_handle_signals (sigs : list signum) :
  keeps_stop (W:=W) (handle_signals sigs).
Proof.
  induction sigs as [|s rest IH]; cbn [handle_signals].
  - apply stop_same. reflexivity.
  - apply stop_bind; [apply stop_handle_signal|]. intros _. exact IH.
Qed.

Lemma stop_interrupts : keeps_stop (interrupts P).
Proof.
  unfold interrupts.
  apply stop_bind; [apply stop_same; reflexivity|]. intros w.
  destruct (deliver P w) as [sigs w'].
  apply stop_bind; [apply stop_same; reflexivity|]. intros _.
  apply stop_handle_signals.
Qed.

Lemma stop_deref {A : Type} (field : machine W -> option A) :
  keeps_stop (deref field).
Proof.
  unfold deref. apply stop_bind; [apply stop_same; reflexivity|].
  intros [a|]; apply stop_same; reflexivity.
Qed.

Lemma stop_call {A : Type} (f : W -> A * W) (ev : A -> event) :
  keeps_stop (call P f ev).
Proof.
  unfold call.
  apply stop_bind; [apply stop_interrupts|]. intros _.
  apply stop_bind; [apply stop_same; reflexivity|]. intros w.
  destruct (f w) as [a w'].
  apply stop_bind; [apply stop_same; reflexivity|]. intros _.
  apply stop_bind; [apply stop_same; reflexivity|]. intros _.
  apply stop_same. reflexivity.
Qed.

Lemma stop_call_ (f : W -> W) (ev : event) : keeps_stop (call_ P f ev).
Proof. unfold call_. apply stop_call. Qed.

Lemma stop_Logf (fmt : string) (args : list printf_arg) :
  keeps_stop (Logf P fmt args).
Proof.
  unfold Logf.
  apply stop_bind; [apply stop_interrupts|]. intros _.
  apply stop_same. reflexivity.
Qed.

Ltac stop_step :=
  first
    [ apply stop_call
    | apply stop_call_
    | apply stop_Logf
    | apply stop_deref
    | apply stop_interrupts
    | apply stop_same; reflexivity
    | apply stop_bind; [|intros ?]
    | match goal with
      | |- keeps_stop (match ?x with _ => _ end) => destruct x
      end ].

Lemma stop_init_framework : keeps_stop (init_framework P).
Proof. unfold init_framework. repeat stop_step. Qed.

Lemma stop_cleanup : keeps_stop (cleanup P).
Proof. unfold cleanup. repeat stop_step. Qed.

Lemma stop_loop_body : keeps_stop (loop_body P).
Proof. unfold loop_body. repeat stop_step. Qed.

Lemma stop_main_loop (fuel : nat) : keeps_stop (main_loop P fuel).
Proof.
  induction fuel as [|fuel IH]; rewrite main_loop_eq.
  - apply stop_bind; [apply stop_interrupts|]. intros _.
    apply stop_bind; [apply stop_same; reflexivity|]. intros running.
    destruct (running =? 0); apply stop_same; reflexivity.
  - apply stop_bind; [apply stop_interrupts|]. intros _.
    apply stop_bind; [apply stop_same; reflexivity|]. intros running.
    destruct (running =? 0); [apply stop_same; reflexivity|].
    apply stop_bind; [apply stop_loop_body|]. intros _. exact IH.
Qed.

Lemma stop_main (fuel : nat) : keeps_stop (main P fuel).
Proof.
  unfold main, signal.
  repeat first [ apply stop_init_framework | apply stop_cleanup
               | apply stop_main_loop | stop_step ].
Qed.

(** X10.  Nothing in [main.c] sets the stop flag back.  The signal handler,
    [init_framework], [cleanup], the main loop and [main] each leave
    [g_running] as it was or 0, however they end; a run of the program ends
    with the flag 1 or 0. *)
Theorem stop_flag_is_never_set_back :
  (forall sig, keeps_stop (W:=W) (handle_signal sig))
  /\ keeps_stop (init_framework P)
  /\ keeps_stop (cleanup P)
  /\ (forall fuel, keeps_stop (main_loop P fuel))
  /\ (forall fuel, keeps_stop (main P fuel))
  /\ (forall fuel w,
         g_running (final (main P fuel (boot w))) = 1
         \/ g_running (final (main P fuel (boot w))) = 0).
Proof.
  split; [exact stop_handle_signal|].
  split; [exact stop_init_framework|].
  split; [exact stop_cleanup|].
  split; [exact stop_main_loop|].
  split; [exact stop_main|].
  intros fuel w. exact (stop_main fuel (boot w)).
Qed.

(** ** A null pointer in the loop *)

Lemma faults_bind_here {A B : Type} (c : M W A) (k : A -> M W B)
    (m : machine W) Q :
  faults c m Q -> faults (bind c k) m Q.
Proof.
  unfold faults, bind. destruct (c m); intros H; try contradiction.
  exact H.
Qed.

Lemma faults_bind_later {A B : Type} (c : M W A) (k : A -> M W B)
    (m : machine W) Q :
  wp c m (fun a m' => faults (k a) m' Q) never -> faults (bind c k) m Q.
Proof.
  unfold faults, wp, bind. destruct (c m); intros H; try contradiction.
  exact H.
Qed.

Lemma faults_deref {A : Type} (field : machine W -> option A)
    (m : machine W) (Q : machine W -> Prop) :
  field m = None -> Q m -> faults (deref field) m Q.
Proof.
  intros E H. unfold faults, deref, bind, get. rewrite E. exact H.
Qed.

Ltac no_broadcast Acc :=
  eexists; split; [exact Acc|];
  rewrite ?filter_app, ?filter_signal_logs by reflexivity;
  split; reflexivity.

Lemma loop_body_faults (m : machine W) :
  g_exchange m = None \/ g_strategy m = None \/ g_webserver m = None ->
  faults (loop_body P) m
    (fun m' =>
       exists l,
         advances m m' l
         /\ filter is_broadcast l = []
         /\ filter is_usleep l = []).
Proof.
  intros Hnull.
  assert (Acc := advances_refl m).
  assert (Pacc := same_ptrs_refl m).
  unfold loop_body.
  destruct (g_exchange m) as [ex|] eqn:Ge.
  2: { apply faults_bind_here. apply faults_deref; [exact Ge|].
       no_broadcast Acc. }
  apply faults_bind_later. eapply wp_deref; [exact Ge|].
  apply faults_bind_later. apply wp_call; [reflexivity|].
  intros sg1 [rc_d d] m1 P1 A1. cbn [fst snd] in A1.
  accumulate Acc A1. accumulate_ptrs Pacc P1.
  destruct (g_strategy m) as [st|] eqn:Gs.
  2: { destruct (rc_d =? 0).
       { apply faults_bind_here. apply faults_bind_here.
         apply faults_deref; [rewrite (proj1 Pacc); exact Gs|].
         no_broadcast Acc. }
       apply faults_bind_later. apply wp_ret.
       apply faults_bind_later.
       eapply wp_deref; [rewrite (proj1 (proj2 Pacc)); exact Ge|].
       apply faults_bind_later. apply wp_call; [reflexivity|].
       intros sg2 [rc_a a] m2 P2 A2. cbn [fst snd] in A2.
       accumulate Acc A2. accumulate_ptrs Pacc P2.
       destruct (rc_a =? 0).
       { apply faults_bind_here. apply faults_bind_here.
         apply faults_deref; [rewrite (proj1 Pacc); exact Gs|].
         no_broadcast Acc. }
       apply faults_bind_later. apply wp_ret.
       apply faults_bind_here.
       apply faults_deref; [rewrite (proj1 Pacc); exact Gs|].
       no_broadcast Acc. }
  destruct (g_webserver m) as [ws|] eqn:Gw.
  { destruct Hnull as [H|[H|H]]; discriminate H. }
  apply faults_bind_later.
  destruct (rc_d =? 0).
  all: first
         [ apply wp_ret
         | apply wp_bind;
           (eapply wp_deref; [rewrite (proj1 Pacc); exact Gs|]);
           apply wp_bind; apply wp_call; [reflexivity|];
           intros sg2 rc_t m2 P2 A2;
           accumulate Acc A2; accumulate_ptrs Pacc P2;
           apply wp_ret ].
  all: apply faults_bind_later;
    (eapply wp_deref; [rewrite (proj1 (proj2 Pacc)); exact Ge|]).
  all: apply faults_bind_later; apply wp_call; [reflexivity|];
    intros sg3 [rc_a a] m3 P3 A3; cbn [fst snd] in A3;
    accumulate Acc A3; accumulate_ptrs Pacc P3.
  all: apply faults_bind_later.
  all: destruct (rc_a =? 0).
  all: first
         [ apply wp_ret
         | apply wp_bind;
           (eapply wp_deref; [rewrite (proj1 Pacc); exact Gs|]);
           apply wp_call_; [reflexivity|];
           intros sg4 m4 P4 A4;
           accumulate Acc A4; accumulate_ptrs Pacc P4 ].
  all: apply faults_bind_later;
    (eapply wp_deref; [rewrite (proj1 Pacc); exact Gs|]).
  all: apply faults_bind_later; apply wp_call; [reflexivity|];
    intros sg5 stats m5 P5 A5;
    accumulate Acc A5; accumulate_ptrs Pacc P5.
  all: apply faults_bind_here.
  all: apply faults_deref; [rewrite (proj2 (proj2 Pacc)); exact Gw|].
  all: no_broadcast Acc.
Qed.

(** X11.  The main loop does not check the three pointers itself.  Entered
    with one of them null while the flag says running and no signal is
    due, it dereferences the null pointer within its first cycle, before
    that cycle broadcasts or sleeps. *)
Theorem loop_needs_all_three (fuel : nat) (m : machine W) :
  g_exchange m = None \/ g_strategy m = None \/ g_webserver m = None ->
  g_running m <> 0 ->
  fst (deliver P (world m)) = [] ->
  exists m' l,
    main_loop P (S fuel) m = Crashed m'
    /\ trace m' = trace m ++ l
    /\ filter is_broadcast l = []
    /\ filter is_usleep l = [].
Proof.
  intros Hnull Hrun Hquiet.
  rewrite main_loop_eq. unfold bind at 1.
  destruct (interrupts_run P m) as (m0 & E & Hp & _ & Ha).
  rewrite E, Hquiet in *. cbn [signal_logs map] in Ha.
  unfold bind at 1, get.
  assert (R0 : g_running m0 = g_running m) by apply Ha.
  rewrite R0. apply Z.eqb_neq in Hrun. rewrite Hrun.
  assert (H0 : g_exchange m0 = None \/ g_strategy m0 = None
               \/ g_webserver m0 = None).
  { destruct Hp as (-> & -> & ->). exact Hnull. }
  assert (H := loop_body_faults m0 H0). unfold faults in H.
  unfold bind.
  destruct (loop_body P m0) as [|m'|]; try contradiction.
  destruct H as (l & A & Hb & Hu).
  exists m', l.
  split; [reflexivity|].
  split; [|split; assumption].
  destruct (advances_trans _ _ _ _ _ Ha A) as (T & _). exact T.
Qed.

End Flag.

(** * The further theorems at work in the scripted world *)

Lemma init_framework_stops_at_first_failure_witness :
  let P0 := sim_platform (with_startup true 0 false 0 true 0 0 0 calm) in
  exists rc m' l a,
    init_framework P0 (boot []) = Returned rc m'
    /\ trace m' = l
    /\ calls l = init_calls a
    /\ rc = (if init_ok a then 0 else -1)
    /\ is_some (g_exchange m') = exchange_exists a
    /\ is_some (g_strategy m') = strategy_exists a
    /\ is_some (g_webserver m') = webserver_exists a.
Proof.
  intros P0.
  apply (init_framework_stops_at_first_failure P0 (boot []));
    reflexivity.
Defined.

Lemma failed_startup_never_polls_witness :
  let P0 := sim_platform (with_startup true 0 true 0 true 0 (-1) 0 calm) in
  exists m',
    main P0 3 (boot []) = Returned 1 m'
    /\ filter is_cycle_call (trace m') = [].
Proof.
  intros P0. eexists.
  assert (E : main P0 3 (boot []) = Returned 1 _)
    by (vm_compute; reflexivity).
  split; [exact E|].
  exact (failed_startup_never_polls P0 3 [] _ E).
Defined.

Lemma nothing_used_after_teardown_witness :
  let w := [[]; []; []; []; []; []; []; []; []; []; []; []; [SIGTERM]] in
  exists m',
    main (sim_platform calm) 2 (boot w) = Returned 0 m'
    /\ teardown_comes_last (calls (trace m')) = true.
Proof.
  intros w. eexists.
  assert (E : main (sim_platform calm) 2 (boot w) = Returned 0 _)
    by (vm_compute; reflexivity).
  split; [exact E|].
  exact (nothing_used_after_teardown (sim_platform calm) 2 w 0 _ E).
Defined.

Lemma signal_before_start_skips_loop_witness :
  exists m',
    main (sim_platform calm) 2 (boot [[]; []; [SIGINT]]) = Returned 0 m'
    /\ filter is_cycle_call (trace m') = [].
Proof.
  eexists.
  assert (E : main (sim_platform calm) 2 (boot [[]; []; [SIGINT]])
              = Returned 0 _)
    by (vm_compute; reflexivity).
  split; [exact E|].
  apply (signal_before_start_skips_loop (sim_platform calm) 2
           [[]; []; [SIGINT]] 0 _
           [Ev_signal SIGINT; Ev_signal SIGTERM;
            Ev_create_exchange EXCHANGE_OKEX true;
            Ev_exchange_init ex_config 0;
            Ev_Logf signal_message [Arg_int (signo SIGINT)];
            Ev_create_strategy "arbitrage" true;
            Ev_strategy_init st_config 0;
            Ev_create_webserver true;
            Ev_webserver_init web_config 0;
            Ev_register_strategy;
            Ev_webserver_start 0;
            Ev_strategy_start 0]
           (teardown true true true) E).
  - vm_compute. reflexivity.
  - vm_compute. reflexivity.
Defined.

Lemma calls_keep_pace_witness :
  let m := in_loop (with_polls 0 0 (-1) calm) 1
             [[]; []; []; []; []; []; []; []; [SIGINT]] in
  exists l,
    trace (final (main_loop (sim_platform (with_polls 0 0 (-1) calm)) 5 m))
    = l
    /\ count is_get_depth l = count is_usleep l
    /\ count is_get_account l = count is_usleep l
    /\ count is_get_stats l = count is_usleep l
    /\ count is_broadcast l = count is_usleep l
    /\ count is_on_tick l = count depth_polled l
    /\ count is_on_account l = count account_polled l.
Proof.
  intros m.
  apply (calls_keep_pace (sim_platform (with_polls 0 0 (-1) calm)) 5 m).
  repeat split; discriminate.
Defined.

Lemma callbacks_get_fresh_data_witness :
  let m := in_loop calm 1 [[]; []; []; []; []; []; []; []; [SIGINT]] in
  exists l,
    trace (final (main_loop (sim_platform calm) 5 m)) = l
    /\ handed_on None (calls l).
Proof.
  intros m.
  apply (callbacks_get_fresh_data (sim_platform calm) 5 m).
  repeat split; discriminate.
Defined.

Lemma loop_needs_all_three_witness :
  let m := {| g_running := 1;
              g_strategy := Some (sim_strategy calm);
              g_exchange := Some (sim_exchange calm);
              g_webserver := None;
              world := []; trace := [] |} in
  exists m' l,
    main_loop (sim_platform calm) 1 m = Crashed m'
    /\ trace m' = l
    /\ filter is_broadcast l = []
    /\ filter is_usleep l = [].
Proof.
  intros m.
  apply (loop_needs_all_three (sim_platform calm) 0 m).
  - right. right. reflexivity.
  - discriminate.
  - reflexivity.
Defined.
